(** * terraform-provider-kclx: the [kcl_exec] resource

    A shallow embedding of [internal/provider/kcl_exec_resource.go] (the
    resource's Create / Read / Update / Delete) together with the parts of
    the Go standard library and of the plugin framework that the resource
    calls, and the properties of the resource that the specification states.

    Conventions.
    - A Go [string] and a Go [[]byte] are sequences of bytes; both are
      modelled by [string] (a list of 8-bit [ascii]).
    - A [uint32] is a [Z] kept in [0, 2^32) by [u32]; an [int64] is a [Z]
      kept in [-2^63, 2^63) by [wrap64]; a [time.Duration] is an [int64]
      counting nanoseconds.
    - What the resource asks of the operating system (the current directory,
      the file system, the environment, the order in which a Go map is
      ranged over, the behaviour of the spawned tool) is read from a [World]
      record, so the embedding stays executable. *)

From Stdlib Require Import ZArith String Ascii List Lia Permutation.
From stdpp Require Import gmap strings list pretty.

Local Open Scope Z_scope.

(** ** Strings as byte sequences *)

Definition byte_of (c : ascii) : Z := Z.of_N (N_of_ascii c).

Definition bytes_of (s : string) : list Z := map byte_of (list_ascii_of_string s).

Fixpoint contains_byte (c : ascii) (s : string) : bool :=
  match s with
  | EmptyString => false
  | String d r => if Ascii.eqb c d then true else contains_byte c r
  end.

(** [strings.Join(elems, sep)] *)
Fixpoint Join (elems : list string) (sep : string) : string :=
  match elems with
  | [] => ""
  | [x] => x
  | x :: r => x +:+ sep +:+ Join r sep
  end.

(** [fmt.Sprintf("%v", xs)] for [xs : []string]: the elements separated by
    one space, between square brackets. *)
Definition fmt_v (xs : list string) : string := "[" +:+ Join xs " " +:+ "]".

(** ** crypto/sha256 and encoding/hex *)

Module sha256.

Definition u32 (x : Z) : Z := x mod 2 ^ 32.

(** [bits.RotateLeft32(x, -k)] for [0 < k < 32] on a [uint32]. *)
Definition rotr (k x : Z) : Z :=
  Z.lor (Z.shiftr x k) (u32 (Z.shiftl x (32 - k))).

(** [^x] on a [uint32]. *)
Definition not32 (x : Z) : Z := Z.lxor x (2 ^ 32 - 1).

Definition _K : list Z :=
  [ 0x428A2F98; 0x71374491; 0xB5C0FBCF; 0xE9B5DBA5;
    0x3956C25B; 0x59F111F1; 0x923F82A4; 0xAB1C5ED5;
    0xD807AA98; 0x12835B01; 0x243185BE; 0x550C7DC3;
    0x72BE5D74; 0x80DEB1FE; 0x9BDC06A7; 0xC19BF174;
    0xE49B69C1; 0xEFBE4786; 0x0FC19DC6; 0x240CA1CC;
    0x2DE92C6F; 0x4A7484AA; 0x5CB0A9DC; 0x76F988DA;
    0x983E5152; 0xA831C66D; 0xB00327C8; 0xBF597FC7;
    0xC6E00BF3; 0xD5A79147; 0x06CA6351; 0x14292967;
    0x27B70A85; 0x2E1B2138; 0x4D2C6DFC; 0x53380D13;
    0x650A7354; 0x766A0ABB; 0x81C2C92E; 0x92722C85;
    0xA2BFE8A1; 0xA81A664B; 0xC24B8B70; 0xC76C51A3;
    0xD192E819; 0xD6990624; 0xF40E3585; 0x106AA070;
    0x19A4C116; 0x1E376C08; 0x2748774C; 0x34B0BCB5;
    0x391C0CB3; 0x4ED8AA4A; 0x5B9CCA4F; 0x682E6FF3;
    0x748F82EE; 0x78A5636F; 0x84C87814; 0x8CC70208;
    0x90BEFFFA; 0xA4506CEB; 0xBEF9A3F7; 0xC67178F2 ].

(** The eight chaining words [h0 .. h7] of a digest. *)
Record digest := Digest {
  h0 : Z; h1 : Z; h2 : Z; h3 : Z; h4 : Z; h5 : Z; h6 : Z; h7 : Z }.

Definition init : digest :=
  Digest 0x6A09E667 0xBB67AE85 0x3C6EF372 0xA54FF53A
         0x510E527F 0x9B05688C 0x1F83D9AB 0x5BE0CD19.

(** [w[i] = p[j]<<24 | p[j+1]<<16 | p[j+2]<<8 | p[j+3]] for the sixteen
    words of one 64-byte chunk. *)
Fixpoint be_words (n : nat) (p : list Z) : list Z :=
  match n with
  | O => []
  | S n' =>
      match p with
      | b0 :: b1 :: b2 :: b3 :: r =>
          Z.lor (Z.lor (Z.lor (Z.shiftl b0 24) (Z.shiftl b1 16)) (Z.shiftl b2 8)) b3
            :: be_words n' r
      | _ => []
      end
  end.

(** The message schedule, most recent word first: with [w[i-1]] at the
    head, [w[i-2]], [w[i-7]], [w[i-15]] and [w[i-16]] sit at positions
    1, 6, 14 and 15. *)
Definition schedule_step (rw : list Z) : list Z :=
  let v1 := nth 1 rw 0 in
  let t1 := Z.lxor (Z.lxor (rotr 17 v1) (rotr 19 v1)) (Z.shiftr v1 10) in
  let v2 := nth 14 rw 0 in
  let t2 := Z.lxor (Z.lxor (rotr 7 v2) (rotr 18 v2)) (Z.shiftr v2 3) in
  u32 (t1 + nth 6 rw 0 + t2 + nth 15 rw 0) :: rw.

Definition schedule (p : list Z) : list Z :=
  rev (Nat.iter 48 schedule_step (rev (be_words 16 p))).

(** One round of the compression loop on [(a, b, c, d, e, f, g, h)]. *)
Definition round (s : digest) (kw : Z * Z) : digest :=
  let '(Digest a b c d e f g h) := s in
  let t1 := h + Z.lxor (Z.lxor (rotr 6 e) (rotr 11 e)) (rotr 25 e)
              + Z.lxor (Z.land e f) (Z.land (not32 e) g)
              + fst kw + snd kw in
  let t2 := Z.lxor (Z.lxor (rotr 2 a) (rotr 13 a)) (rotr 22 a)
              + Z.lxor (Z.lxor (Z.land a b) (Z.land a c)) (Z.land b c) in
  Digest (u32 (t1 + t2)) a b c (u32 (d + t1)) e f g.

(** The body of [blockGeneric] for one chunk. *)
Definition block1 (dig : digest) (p : list Z) : digest :=
  let s := fold_left round (combine _K (schedule p)) dig in
  Digest (u32 (h0 dig + h0 s)) (u32 (h1 dig + h1 s))
         (u32 (h2 dig + h2 s)) (u32 (h3 dig + h3 s))
         (u32 (h4 dig + h4 s)) (u32 (h5 dig + h5 s))
         (u32 (h6 dig + h6 s)) (u32 (h7 dig + h7 s)).

(** [for len(p) >= chunk { ...; p = p[chunk:] }] over [n] chunks. *)
Fixpoint block (n : nat) (dig : digest) (p : list Z) : digest :=
  match n with
  | O => dig
  | S n' => block n' (block1 dig (firstn 64 p)) (skipn 64 p)
  end.

(** [checkSum]'s padding: a [0x80] byte, zero bytes up to 56 modulo 64,
    and the length of the message in bits as a big-endian [uint64]. *)
Definition be64 (x : Z) : list Z :=
  map (fun k => Z.land (Z.shiftr x k) 255) [56; 48; 40; 32; 24; 16; 8; 0].

Definition padding (len : Z) : list Z :=
  0x80 :: repeat 0 (Z.to_nat ((55 - len) mod 64)) ++ be64 (Z.shiftl len 3 mod 2 ^ 64).

Definition be32 (x : Z) : list Z :=
  map (fun k => Z.land (Z.shiftr x k) 255) [24; 16; 8; 0].

(** [sha256.Sum256(data)], the 32 bytes of the digest. *)
Definition Sum256 (data : string) : list Z :=
  let msg := bytes_of data in
  let p := msg ++ padding (Z.of_nat (length msg)) in
  let d := block (Nat.div (length p) 64) init p in
  be32 (h0 d) ++ be32 (h1 d) ++ be32 (h2 d) ++ be32 (h3 d) ++
  be32 (h4 d) ++ be32 (h5 d) ++ be32 (h6 d) ++ be32 (h7 d).

End sha256.

Module hex.

Definition hextable : string := "0123456789abcdef".

Definition digit (n : Z) : ascii :=
  match String.get (Z.to_nat n) hextable with
  | Some c => c
  | None => "0"%char
  end.

(** [hex.EncodeToString(src)]: [hextable[v>>4]], [hextable[v&0x0f]] for
    every byte [v]. *)
Fixpoint EncodeToString (src : list Z) : string :=
  match src with
  | [] => ""
  | v :: r => String (digit (Z.shiftr v 4)) (String (digit (Z.land v 15)) (EncodeToString r))
  end.

(** The value of a hexadecimal digit, as [hex.DecodeString] reads it. *)
Definition fromHexChar (c : ascii) : Z :=
  let b := byte_of c in
  if (48 <=? b) && (b <=? 57) then b - 48
  else if (97 <=? b) && (b <=? 102) then b - 97 + 10
  else if (65 <=? b) && (b <=? 70) then b - 65 + 10
  else 0.

End hex.

(** ** Hexadecimal strings *)

Definition is_byte (b : Z) : Prop := 0 <= b < 256.

Definition is_hex_digit (c : ascii) : bool :=
  let b := byte_of c in
  ((48 <=? b) && (b <=? 57)) || ((97 <=? b) && (b <=? 102)).

Fixpoint all_chars (p : ascii -> bool) (s : string) : bool :=
  match s with
  | EmptyString => true
  | String c r => p c && all_chars p r
  end.

(** Case analysis on a nibble: the sixteen values of [0 <= n < 16]. *)
Ltac nibble_cases n :=
  let k := fresh "k" in
  let H := fresh "H" in
  replace n with (Z.of_nat (Z.to_nat n)) by lia;
  assert (H : (Z.to_nat n < 16)%nat) by lia;
  revert H; generalize (Z.to_nat n); intros k H;
  do 16 (destruct k as [|k]; [reflexivity|]); lia.

(** ** strings.TrimSpace *)

Module strings_.

(** The ASCII white space of [asciiSpace]: tab, line feed, vertical tab,
    form feed, carriage return and space. *)
Definition asciiSpace (c : ascii) : bool :=
  let b := byte_of c in ((9 <=? b) && (b <=? 13)) || (b =? 32).

(** The white space runes of [unicode.IsSpace] above U+007F, by their
    UTF-8 encoding (the decoder accepts the shortest encoding only):
    U+0085 and U+00A0 on two bytes; U+1680, U+2000..U+200A, U+2028,
    U+2029, U+202F, U+205F and U+3000 on three. *)
Definition space2 (c1 c2 : ascii) : bool :=
  (byte_of c1 =? 0xC2) && ((byte_of c2 =? 0x85) || (byte_of c2 =? 0xA0)).

Definition space3 (c1 c2 c3 : ascii) : bool :=
  let '(b1, b2, b3) := (byte_of c1, byte_of c2, byte_of c3) in
  ((b1 =? 0xE1) && (b2 =? 0x9A) && (b3 =? 0x80))
  || ((b1 =? 0xE2) && (b2 =? 0x80)
      && (((0x80 <=? b3) && (b3 <=? 0x8A)) || (b3 =? 0xA8) || (b3 =? 0xA9) || (b3 =? 0xAF)))
  || ((b1 =? 0xE2) && (b2 =? 0x81) && (b3 =? 0x9F))
  || ((b1 =? 0xE3) && (b2 =? 0x80) && (b3 =? 0x80)).

(** Drops leading white space runes. With [fwd = false] the string is
    read back to front, so the bytes of a rune arrive last byte first. *)
Fixpoint trim (fwd : bool) (s : string) : string :=
  match s with
  | String c1 r1 =>
      if asciiSpace c1 then trim fwd r1
      else match r1 with
           | String c2 r2 =>
               if (if fwd then space2 c1 c2 else space2 c2 c1) then trim fwd r2
               else match r2 with
                    | String c3 r3 =>
                        if (if fwd then space3 c1 c2 c3 else space3 c3 c2 c1)
                        then trim fwd r3 else s
                    | EmptyString => s
                    end
           | EmptyString => s
           end
  | EmptyString => s
  end.

Definition TrimLeft (s : string) : string := trim true s.

Definition TrimRight (s : string) : string :=
  String.rev (trim false (String.rev s)).

(** [strings.TrimSpace(s)]: all leading and trailing white space removed. *)
Definition TrimSpace (s : string) : string := TrimRight (TrimLeft s).

End strings_.

(** ** White space at the ends of a string

    [spaces fwd s]: [s] is a sequence of white space runes, in UTF-8 when
    [fwd] is true and in UTF-8 read back to front otherwise. *)
Inductive spaces (fwd : bool) : string -> Prop :=
| spaces_nil : spaces fwd ""
| spaces_ascii c s :
    strings_.asciiSpace c = true -> spaces fwd s -> spaces fwd (String c s)
| spaces_two c1 c2 s :
    (if fwd then strings_.space2 c1 c2 else strings_.space2 c2 c1) = true ->
    spaces fwd s -> spaces fwd (String c1 (String c2 s))
| spaces_three c1 c2 c3 s :
    (if fwd then strings_.space3 c1 c2 c3 else strings_.space3 c3 c2 c1) = true ->
    spaces fwd s -> spaces fwd (String c1 (String c2 (String c3 s))).

(** ** The plugin framework: attribute values and diagnostics *)

Module types.

(** A framework value ([types.String], [types.Int64], [types.List],
    [types.Map]) is null, unknown, or known. *)
Inductive value (A : Type) : Type :=
| Null
| Unknown
| Known (a : A).
Arguments Null {A}.
Arguments Unknown {A}.
Arguments Known {A} a.

Definition IsNull {A} (v : value A) : bool :=
  match v with Null => true | _ => false end.

(** [ValueString()]: the empty string for null and unknown. *)
Definition ValueString (v : value string) : string :=
  match v with Known s => s | _ => "" end.

(** [ValueInt64()]: zero for null and unknown. *)
Definition ValueInt64 (v : value Z) : Z :=
  match v with Known n => n | _ => 0 end.

Definition StringValue (s : string) : value string := Known s.

End types.
Import types.

Module diag.

Inductive Severity := SeverityError | SeverityWarning.

Record Diagnostic := NewDiagnostic {
  severity : Severity;
  Summary : string;
  Detail : string }.

Definition Diagnostics := list Diagnostic.

Definition NewErrorDiagnostic (summary detail : string) : Diagnostic :=
  NewDiagnostic SeverityError summary detail.

Definition Diagnostic_eqb (a b : Diagnostic) : bool :=
  match severity a, severity b with
  | SeverityError, SeverityError | SeverityWarning, SeverityWarning =>
      String.eqb (Summary a) (Summary b) && String.eqb (Detail a) (Detail b)
  | _, _ => false
  end.

Definition Contains (ds : Diagnostics) (d : Diagnostic) : bool :=
  existsb (Diagnostic_eqb d) ds.

(** [diags.Append(in...)] skips a diagnostic that is already there. *)
Definition Append (ds : Diagnostics) (new : Diagnostics) : Diagnostics :=
  fold_left (fun acc d => if Contains acc d then acc else acc ++ [d]) new ds.

Definition AddError (ds : Diagnostics) (summary detail : string) : Diagnostics :=
  Append ds [NewErrorDiagnostic summary detail].

Definition HasError (ds : Diagnostics) : bool :=
  existsb (fun d => match severity d with SeverityError => true | _ => false end) ds.

End diag.
Import diag.

(** [ElementsAs(ctx, &target, false)] into a [[]string] or a
    [map[string]string]: every element has to be a known string, and the
    collection itself known (the caller has excluded null). *)
Definition conversion_error : Diagnostic :=
  NewErrorDiagnostic "Value Conversion Error"
    "An unexpected error was encountered trying to convert a value.".

Fixpoint known_strings (l : list (value string)) : option (list string) :=
  match l with
  | [] => Some []
  | Known s :: r => match known_strings r with Some t => Some (s :: t) | None => None end
  | _ :: _ => None
  end.

Definition List_ElementsAs (v : value (list (value string))) : Diagnostics * list string :=
  match v with
  | Known l => match known_strings l with
               | Some t => ([], t)
               | None => ([conversion_error], [])
               end
  | _ => ([conversion_error], [])
  end.

Definition known_string (v : value string) : option string :=
  match v with Known s => Some s | _ => None end.

Definition Map_ElementsAs (v : value (gmap string (value string)))
  : Diagnostics * gmap string string :=
  match v with
  | Known m => if decide (map_Forall (fun _ e => is_Some (known_string e)) m)
               then ([], omap known_string m)
               else ([conversion_error], ∅)
  | _ => ([conversion_error], ∅)
  end.

(** ** time, context and os/exec *)

Definition wrap64 (x : Z) : Z := (x + 2 ^ 63) mod 2 ^ 64 - 2 ^ 63.

Module time.

(** A [time.Duration] is an [int64] count of nanoseconds. *)
Definition Duration := Z.
Definition Second : Duration := 1000000000.

End time.

Module context.

(** A context is known by the time left until its deadline, in
    nanoseconds ([None]: no deadline); it is done as soon as that time is
    not positive. *)
Record Context := { remaining : option Z }.

Definition Background : Context := {| remaining := None |}.

(** [context.WithTimeout(parent, d)]: the earlier of the parent's deadline
    and [d] from now. *)
Definition WithTimeout (parent : Context) (d : time.Duration) : Context :=
  {| remaining := Some (match remaining parent with
                        | Some p => Z.min p d
                        | None => d
                        end) |}.

Definition Done (ctx : Context) : bool :=
  match remaining ctx with Some d => d <=? 0 | None => false end.

(** Whether something that happens [t] nanoseconds from now happens
    before the context is done. *)
Definition before (ctx : Context) (t : Z) : bool :=
  match remaining ctx with Some d => t <? d | None => true end.

End context.

Module exec.

(** [exec.CommandContext(ctx, name, arg...)] with [Dir] and [Env] set. *)
Record Cmd := {
  Name : string;
  Args : list string;
  Dir : string;
  Env : list string }.

(** What the operating system makes of a command: whether the executable
    is found, whether the process starts, and then what the process writes
    to its standard output and standard error (both are the same pipe
    under [CombinedOutput], so the chunks are in the order produced, each
    with the time of the write), when it exits and with which status.
    Times are nanoseconds since the start. *)
Record Process := {
  lookpath_err : option string;
  start_err : option string;
  writes : list (Z * string);
  exit_time : Z;
  exit_status : Z }.

Inductive Error :=
| ErrLookPath (msg : string)
| ErrDeadlineExceeded
| ErrStart (msg : string)
| ErrExit (status : Z)
| ErrKilled.

(** [err.Error()] *)
Definition Error_string (e : Error) : string :=
  match e with
  | ErrLookPath msg => msg
  | ErrDeadlineExceeded => "context deadline exceeded"
  | ErrStart msg => msg
  | ErrExit status => "exit status " +:+ pretty status
  | ErrKilled => "signal: killed"
  end.

(** The bytes written strictly before time [t]. *)
Fixpoint written_before (t : Z) (ws : list (Z * string)) : string :=
  match ws with
  | [] => ""
  | (tw, chunk) :: r =>
      if tw <? t then chunk +:+ written_before t r else written_before t r
  end.

Fixpoint written (ws : list (Z * string)) : string :=
  match ws with
  | [] => ""
  | (_, chunk) :: r => chunk +:+ written r
  end.

(** [cmd.CombinedOutput()]: [Start] reports a failed lookup of the
    executable, then a context that is already done, then a failed start;
    a started process is waited for, and killed when the context is done
    first. *)
Definition CombinedOutput (ctx : context.Context) (p : Process)
  : string * option Error :=
  match lookpath_err p with
  | Some msg => ("", Some (ErrLookPath msg))
  | None =>
      if context.Done ctx then ("", Some ErrDeadlineExceeded)
      else match start_err p with
           | Some msg => ("", Some (ErrStart msg))
           | None =>
               if context.before ctx (exit_time p)
               then (written (writes p),
                     if exit_status p =? 0 then None else Some (ErrExit (exit_status p)))
               else (match context.remaining ctx with
                     | Some d => written_before d (writes p)
                     | None => written (writes p)
                     end, Some ErrKilled)
           end
  end.

End exec.

(** ** The world outside the provider *)

Inductive StatResult :=
| StatOk (is_dir : bool)
| StatNotExist            (* ENOENT *)
| StatError (msg : string) (* any other error: EACCES, ENOTDIR, ... *).

(** [os.IsNotExist(err)] on the error of [os.Stat]. *)
Definition IsNotExist (r : StatResult) : bool :=
  match r with StatNotExist => true | _ => false end.

Record World := {
  (** [filepath.Abs(path)]: the absolute path, or the error of [os.Getwd]. *)
  filepath_Abs : string -> string + string;
  (** [os.Stat(name)] *)
  os_Stat : string -> StatResult;
  (** [os.Environ()] *)
  os_Environ : list string;
  (** the order in which this run ranges over a map: see [range_order] *)
  range_seed : list nat;
  (** the process a command turns into *)
  spawn : exec.Cmd -> exec.Process }.

(** Go ranges over a map in an unspecified order. [range_order seeds l]
    is the order chosen by [seeds]: the entries of [l] are inserted one by
    one, each at the position its seed picks. Every order is reached by
    some [seeds]. *)
Fixpoint range_order {A} (seeds : list nat) (l : list A) : list A :=
  match l with
  | [] => []
  | x :: r =>
      let t := range_order (tl seeds) r in
      let i := Nat.modulo (hd O seeds) (S (length t)) in
      take i t ++ x :: drop i t
  end.

(** The calls that reach outside the process, in the order made. *)
Inductive Call :=
| CallAbs (path : string)
| CallStat (name : string)
| CallEnviron
| CallRun (cmd : exec.Cmd) (ctx : context.Context) (output : string) (err : option exec.Error).

(** ** The provider and the resource *)

Record kclProvider := {
  KclPath : string;
  version : string }.

(** [kclProvider.Configure]: a non-null [kcl_path] of the provider block
    is stored in [KclPath]. *)
Definition kclProvider_Configure (p : kclProvider) (kcl_path : value string)
  : kclProvider :=
  if IsNull kcl_path then p
  else {| KclPath := ValueString kcl_path; version := version p |}.

Record KclExecResource := {
  provider : option kclProvider  (* [None]: the nil pointer *) }.

Record KclExecResourceModel := {
  ID : value string;
  SourceDir : value string;
  Output : value string;
  Args : value (list (value string));
  Triggers : value (gmap string (value string));
  Timeout : value Z;
  Environment : value (gmap string (value string)) }.

(** [req.Plan.Get(ctx, &plan)] yields the decoded plan and the diagnostics
    of the decoding. *)
Record CreateRequest := {
  Plan : KclExecResourceModel;
  Plan_Get_diags : Diagnostics }.

(** The state of a response is [None] until [State.Set] stores a model. *)
Record Response := {
  State : option KclExecResourceModel;
  Diags : Diagnostics }.

Definition new_Response : Response := {| State := None; Diags := [] |}.

Definition resp_Append (resp : Response) (ds : Diagnostics) : Response :=
  {| State := State resp; Diags := Append (Diags resp) ds |}.

Definition resp_AddError (resp : Response) (summary detail : string) : Response :=
  {| State := State resp; Diags := AddError (Diags resp) summary detail |}.

Definition nl : string := String "010" "".

(** [kclCommand := "kcl"], replaced by the provider's non-empty [KclPath]. *)
Definition kclCommand_of (r : KclExecResource) : string :=
  match provider r with
  | Some p => if String.eqb (KclPath p) "" then "kcl" else KclPath p
  | None => "kcl"
  end.

(** [args := []string{}], filled by [plan.Args.ElementsAs] unless the
    attribute is null. *)
Definition decode_args (plan : KclExecResourceModel) : Diagnostics * list string :=
  if IsNull (Args plan) then ([], []) else List_ElementsAs (Args plan).

(** [envMap], filled by [plan.Environment.ElementsAs] unless the attribute
    is null (in which case nothing is appended to the environment). *)
Definition decode_env (plan : KclExecResourceModel) : Diagnostics * gmap string string :=
  if IsNull (Environment plan) then ([], ∅) else Map_ElementsAs (Environment plan).

(** [fmt.Sprintf("%s=%s", k, v)] *)
Definition env_entry (kv : string * string) : string := fst kv +:+ "=" +:+ snd kv.

(** [for k, v := range envMap { envVars = append(envVars, ...) }] *)
Definition append_env (w : World) (envVars : list string) (envMap : gmap string string)
  : list string :=
  envVars ++ map env_entry (range_order (range_seed w) (map_to_list envMap)).

(** [timeout := 300 * time.Second], replaced by the declared number of
    seconds when the attribute is not null; the product is an [int64]. *)
Definition timeout_of (plan : KclExecResourceModel) : time.Duration :=
  if IsNull (Timeout plan) then 300 * time.Second
  else wrap64 (wrap64 (ValueInt64 (Timeout plan)) * time.Second).

(** [fmt.Sprintf("%s|%s|%v|%v", absPath, kclCommand, args, envVars)] *)
Definition idInput (absPath kclCommand : string) (args envVars : list string) : string :=
  absPath +:+ "|" +:+ kclCommand +:+ "|" +:+ fmt_v args +:+ "|" +:+ fmt_v envVars.

(** [hex.EncodeToString(hash[:16])] of the SHA-256 of [idInput]. *)
Definition generate_id (absPath kclCommand : string) (args envVars : list string) : string :=
  let hash := sha256.Sum256 (idInput absPath kclCommand args envVars) in
  hex.EncodeToString (take 16 hash).

Definition execution_failed_detail (kclCommand : string) (args : list string)
    (err : exec.Error) (output : string) : string :=
  "Command: " +:+ kclCommand +:+ " " +:+ Join args " " +:+ nl +:+
  "Error: " +:+ exec.Error_string err +:+ nl +:+
  "Output: " +:+ output.

(** [KclExecResource.Create]: the response it leaves, and the calls it made
    to get there. *)
Definition Create (w : World) (r : KclExecResource) (ctx : context.Context)
    (req : CreateRequest) (resp : Response) : Response * list Call :=
  let plan := Plan req in
  let resp := resp_Append resp (Plan_Get_diags req) in
  if HasError (Diags resp) then (resp, []) else
  (* Validate and resolve source directory *)
  let sourceDir := ValueString (SourceDir plan) in
  match filepath_Abs w sourceDir with
  | inr err =>
      (resp_AddError resp "Path Resolution Error"
         ("Invalid source directory path: " +:+ err),
       [CallAbs sourceDir])
  | inl absPath =>
  (* Check directory existence *)
  if IsNotExist (os_Stat w absPath) then
    (resp_AddError resp "Directory Not Found"
       ("Source directory does not exist: " +:+ absPath),
     [CallAbs sourceDir; CallStat absPath])
  else
  (* Determine KCL command path *)
  let kclCommand := kclCommand_of r in
  (* Prepare arguments *)
  let '(diags, args) := decode_args plan in
  let resp := resp_Append resp diags in
  if HasError (Diags resp) then (resp, [CallAbs sourceDir; CallStat absPath]) else
  (* Prepare environment variables *)
  let envVars := os_Environ w in
  let '(diags, envMap) := decode_env plan in
  let resp := resp_Append resp diags in
  if HasError (Diags resp)
  then (resp, [CallAbs sourceDir; CallStat absPath; CallEnviron]) else
  let envVars := append_env w envVars envMap in
  (* Create execution context with timeout *)
  let timeout := timeout_of plan in
  let ctx := context.WithTimeout ctx timeout in
  (* Execute command *)
  let cmd := {| exec.Name := kclCommand; exec.Args := args;
                exec.Dir := absPath; exec.Env := envVars |} in
  let '(output, err) := exec.CombinedOutput ctx (spawn w cmd) in
  let calls := [CallAbs sourceDir; CallStat absPath; CallEnviron;
                CallRun cmd ctx output err] in
  match err with
  | Some e =>
      (resp_AddError resp "KCL Execution Failed"
         (execution_failed_detail kclCommand args e output),
       calls)
  | None =>
      (* Generate unique ID based on inputs *)
      let plan := {| ID := StringValue (generate_id absPath kclCommand args envVars);
                     SourceDir := SourceDir plan;
                     Output := StringValue (strings_.TrimSpace output);
                     Args := Args plan;
                     Triggers := Triggers plan;
                     Timeout := Timeout plan;
                     Environment := Environment plan |} in
      (* [resp.State.Set(ctx, plan)] stores the model; the model has the
         attributes of the schema, so the conversion reports nothing. *)
      ({| State := Some plan; Diags := Append (Diags resp) [] |}, calls)
  end
  end.

(** Case analysis on every test and decoding step of [Create]. *)
Ltac create_cases :=
  unfold Create;
  repeat match goal with
         | |- context [match filepath_Abs ?w ?p with _ => _ end] =>
             destruct (filepath_Abs w p) eqn:?
         | |- context [if IsNotExist ?s then _ else _] =>
             destruct (IsNotExist s) eqn:?
         | |- context [if HasError ?d then _ else _] =>
             destruct (HasError d) eqn:?
         | |- context [let '(_, _) := ?x in _] =>
             destruct x eqn:?
         | |- context [match ?e with Some _ => _ | None => _ end] =>
             destruct e eqn:?
         end;
  simpl in *.

(** [KclExecResource.Read]: nothing to read after creation. *)
Definition Read (resp : Response) : Response := resp.

(** [KclExecResource.Update]: the response arrives holding the prior state. *)
Definition Update (resp : Response) : Response :=
  resp_AddError resp "Update Not Supported"
    "KCL execution resource does not support updates - changes require replacement".

(** [KclExecResource.Delete]: no persistent state to clean up. *)
Definition Delete (resp : Response) : Response := resp.

(** ** The error taxonomy of the specification

    Each diagnostic the resource raises, by its summary. No diagnostic of
    the resource stands for a timeout of its own. *)
Inductive ErrorKind :=
| PathResolutionError
| DirectoryNotFoundError
| TimeoutError
| ExecutionFailedError
| UnsupportedOperationError.

Definition kind_of (d : Diagnostic) : option ErrorKind :=
  if String.eqb (Summary d) "Path Resolution Error" then Some PathResolutionError
  else if String.eqb (Summary d) "Directory Not Found" then Some DirectoryNotFoundError
  else if String.eqb (Summary d) "KCL Execution Failed" then Some ExecutionFailedError
  else if String.eqb (Summary d) "Update Not Supported" then Some UnsupportedOperationError
  else None.

(** ** Reading an environment vector

    The value a process sees for [key]: the entries are [key=value], split
    at the first [=], and of several entries for one key the last counts. *)
Fixpoint split_entry (s : string) : option (string * string) :=
  match s with
  | EmptyString => None
  | String c r =>
      if Ascii.eqb c "="%char then Some ("", r)
      else match split_entry r with
           | Some (k, v) => Some (String c k, v)
           | None => None
           end
  end.

Definition getenv_step (key : string) (acc : option string) (e : string)
  : option string :=
  match split_entry e with
  | Some (k, v) => if String.eqb k key then Some v else acc
  | None => acc
  end.

Definition getenv (env : list string) (key : string) : option string :=
  fold_left (getenv_step key) env None.

(** The world [w] with another file system. *)
Definition with_Stat (w : World) (stat : string -> StatResult) : World :=
  {| filepath_Abs := filepath_Abs w;
     os_Stat := stat;
     os_Environ := os_Environ w;
     range_seed := range_seed w;
     spawn := spawn w |}.

(** A run that completed without error, among the calls made. *)
Definition ran_without_error (calls : list Call) : Prop :=
  exists cmd c out, In (CallRun cmd c out None) calls.

(** ** Inputs without delimiters

    The four inputs of the id are joined with [|], and the elements of the
    two vectors with a space. The inputs are free of delimiters when the
    two paths have no [|], the arguments are non-empty and have neither a
    space nor a [|], and the environment entries are non-empty and have no
    space. *)
Definition delimiter_free (absPath kclCommand : string) (args envVars : list string)
  : Prop :=
  contains_byte "|" absPath = false
  /\ contains_byte "|" kclCommand = false
  /\ Forall (fun a => a <> "" /\ contains_byte " " a = false
                      /\ contains_byte "|" a = false) args
  /\ Forall (fun e => e <> "" /\ contains_byte " " e = false) envVars.

(** ** Configuration of the provider and of the resource *)

(** [New(version)()]: a provider with no path configured. *)
Definition New (version : string) : kclProvider :=
  {| KclPath := ""; version := version |}.

(** [NewKclExecResource()]: a resource with no provider yet. *)
Definition NewKclExecResource : KclExecResource := {| provider := None |}.

(** The value of an [any] that the host hands to a resource as provider
    data: the nil interface, a [*kclProvider] (itself possibly a nil
    pointer), or a value of another type, known by what [%T] prints. *)
Inductive ProviderData :=
| DataNil
| DataKclProvider (p : option kclProvider)
| DataOther (type_name : string).

(** [req.Config.Get(ctx, &config)] yields the [kcl_path] of the provider
    block and the diagnostics of the decoding. *)
Record ProviderConfigureRequest := {
  Config_kcl_path : value string;
  Config_Get_diags : Diagnostics }.

Record ProviderConfigureResponse := {
  ConfigureDiags : Diagnostics;
  ResourceData : ProviderData }.

Definition new_ProviderConfigureResponse : ProviderConfigureResponse :=
  {| ConfigureDiags := []; ResourceData := DataNil |}.

(** [kclProvider.Configure]: the provider after the call (the receiver is
    a pointer) and the response. *)
Definition Provider_Configure (p : kclProvider) (req : ProviderConfigureRequest)
    (resp : ProviderConfigureResponse) : kclProvider * ProviderConfigureResponse :=
  let diags := Append (ConfigureDiags resp) (Config_Get_diags req) in
  if HasError diags
  then (p, {| ConfigureDiags := diags; ResourceData := ResourceData resp |})
  else
    (* Set the provider configuration *)
    let p := kclProvider_Configure p (Config_kcl_path req) in
    (* Make the provider configuration available to resources *)
    (p, {| ConfigureDiags := diags; ResourceData := DataKclProvider (Some p) |}).

(** [KclExecResource.Configure]: the resource after the call and the
    diagnostics of the response. *)
Definition Resource_Configure (r : KclExecResource) (data : ProviderData)
    (diags : Diagnostics) : KclExecResource * Diagnostics :=
  match data with
  | DataNil => (r, diags)
  | DataOther type_name =>
      (r, AddError diags "Unexpected Provider Data Type"
            ("Expected *kclProvider, got: " +:+ type_name))
  | DataKclProvider p => ({| provider := p |}, diags)
  end.

(** [KclExecResource.Metadata]: the type name of the resource. *)
Definition Resource_TypeName (ProviderTypeName : string) : string :=
  ProviderTypeName +:+ "_exec".

(** [kclProvider.Metadata]: the type name and the version of the provider. *)
Definition Provider_Metadata (p : kclProvider) : string * string :=
  ("kcl", version p).

(** The resource the host ends up with: a provider made by [New] is
    configured with [req], and a new resource with the provider data of the
    response. *)
Definition configured_resource (version : string) (req : ProviderConfigureRequest)
  : KclExecResource * Diagnostics :=
  let '(_, resp) := Provider_Configure (New version) req new_ProviderConfigureResponse in
  Resource_Configure NewKclExecResource (ResourceData resp) [].

(** The plan [plan] with other triggers and other values in the computed
    attributes. *)
Definition with_inert (plan : KclExecResourceModel) (id output : value string)
    (triggers : value (gmap string (value string))) : KclExecResourceModel :=
  {| ID := id; SourceDir := SourceDir plan; Output := output;
     Args := Args plan; Triggers := triggers; Timeout := Timeout plan;
     Environment := Environment plan |}.

(** The world [w] with another behaviour of the commands, and with another
    order of ranging over maps. *)
Definition with_spawn (w : World) (sp : exec.Cmd -> exec.Process) : World :=
  {| filepath_Abs := filepath_Abs w;
     os_Stat := os_Stat w;
     os_Environ := os_Environ w;
     range_seed := range_seed w;
     spawn := sp |}.

Definition with_seed (w : World) (seed : list nat) : World :=
  {| filepath_Abs := filepath_Abs w;
     os_Stat := os_Stat w;
     os_Environ := os_Environ w;
     range_seed := seed;
     spawn := spawn w |}.

(** The calls of a create that went as far as running [cmd]. *)
Definition full_trace (sourceDir : string) (cmd : exec.Cmd) (c : context.Context)
    (out : string) (err : option exec.Error) : list Call :=
  [CallAbs sourceDir; CallStat (exec.Dir cmd); CallEnviron; CallRun cmd c out err].

Definition is_run (call : Call) : bool :=
  match call with CallRun _ _ _ _ => true | _ => false end.

(** ** Sample worlds and requests *)

Module Sample.

Definition model (src : string) (args : value (list (value string)))
    (timeout : value Z) (env : value (gmap string (value string)))
  : KclExecResourceModel :=
  {| ID := Unknown; SourceDir := Known src; Output := Unknown;
     Args := args; Triggers := Null; Timeout := timeout; Environment := env |}.

Definition request (m : KclExecResourceModel) : CreateRequest :=
  {| Plan := m; Plan_Get_diags := [] |}.

Definition resource : KclExecResource :=
  {| provider := Some {| KclPath := "/usr/local/bin/kcl"; version := "1.0.0" |} |}.

Definition unconfigured : KclExecResource := {| provider := None |}.

(** A tool that writes [hello] to standard output and then [world] to
    standard error, and exits after a millisecond with [status]. *)
Definition hello (status : Z) : exec.Process :=
  {| exec.lookpath_err := None; exec.start_err := None;
     exec.writes := [(100, "hello" +:+ nl); (200, "world" +:+ nl)];
     exec.exit_time := 1000000; exec.exit_status := status |}.

(** A tool that writes [started], sleeps for ten minutes, writes [done]
    and exits with status 0. *)
Definition sleeper : exec.Process :=
  {| exec.lookpath_err := None; exec.start_err := None;
     exec.writes := [(100, "started" +:+ nl); (600 * time.Second, "done" +:+ nl)];
     exec.exit_time := 600 * time.Second + 1; exec.exit_status := 0 |}.

(** A tool that prints [ok] and exits with status 0. *)
Definition ok : exec.Process :=
  {| exec.lookpath_err := None; exec.start_err := None;
     exec.writes := [(100, "ok" +:+ nl)];
     exec.exit_time := 1000; exec.exit_status := 0 |}.

(** A world whose current directory is [/work], in which [/work/kcl]
    is a directory, [/work/main.k] a regular file and nothing else
    exists, and in which every command behaves as [p]. *)
Definition world (environ : list string) (seed : list nat) (p : exec.Process) : World :=
  {| filepath_Abs := fun path =>
       if String.eqb path "" then inl "/work"
       else if String.prefix "/" path then inl path
       else inl ("/work/" +:+ path);
     os_Stat := fun name =>
       if String.eqb name "/work/kcl" then StatOk true
       else if String.eqb name "/work/main.k" then StatOk false
       else StatNotExist;
     os_Environ := environ;
     range_seed := seed;
     spawn := fun _ => p |}.

(** A world in which the current directory cannot be determined. *)
Definition lost (p : exec.Process) : World :=
  {| filepath_Abs := fun _ => inr "getwd: no such file or directory";
     os_Stat := fun _ => StatNotExist;
     os_Environ := [];
     range_seed := [];
     spawn := fun _ => p |}.

End Sample.

(** ** More sample tools *)

Module Tools.

(** No executable of that name on the search path. *)
Definition missing : exec.Process :=
  {| exec.lookpath_err :=
       Some ("exec: " +:+ String "034" "kcl" +:+ String "034"
               ": executable file not found in $PATH");
     exec.start_err := None;
     exec.writes := []; exec.exit_time := 0; exec.exit_status := 0 |}.

(** A tool that prints only an empty line and spaces. *)
Definition blank : exec.Process :=
  {| exec.lookpath_err := None; exec.start_err := None;
     exec.writes := [(100, nl +:+ "   " +:+ nl)];
     exec.exit_time := 1000; exec.exit_status := 0 |}.

(** A tool that prints an answer between blank lines. *)
Definition padded : exec.Process :=
  {| exec.lookpath_err := None; exec.start_err := None;
     exec.writes := [(100, nl +:+ "  a: 1" +:+ nl); (200, "b: 2  " +:+ nl +:+ nl)];
     exec.exit_time := 1000; exec.exit_status := 0 |}.

End Tools.

(** ** A file tree behind [os.Stat]

    A node is a regular file or a directory of named entries. A path names
    the node reached from the root through its components, if there is one.
    [stat] walks the same way and says why it stops: an entry missing from
    a directory is [ENOENT], a regular file in the place of a directory is
    [ENOTDIR]. *)
Module fs.

Inductive Node :=
| File
| Dir (entries : Entries)
with Entries :=
| NoEntry
| Entry (name : string) (node : Node) (rest : Entries).

Inductive Errno := ENOENT | ENOTDIR.

Definition is_dir (n : Node) : bool :=
  match n with Dir _ => true | File => false end.

Fixpoint entry (name : string) (entries : Entries) : option Node :=
  match entries with
  | NoEntry => None
  | Entry k n rest => if String.eqb k name then Some n else entry name rest
  end.

(** The components of a path: what stands between the slashes. *)
Fixpoint components (path cur : string) : list string :=
  match path with
  | EmptyString => if String.eqb cur "" then [] else [cur]
  | String c rest =>
      if Ascii.eqb c "/"
      then (if String.eqb cur "" then components rest ""
            else cur :: components rest "")
      else components rest (cur +:+ String c "")
  end.

(** The node a path names, if the path exists. *)
Fixpoint resolve (n : Node) (comps : list string) : option Node :=
  match comps with
  | [] => Some n
  | c :: rest =>
      match n with
      | Dir entries =>
          match entry c entries with
          | Some n' => resolve n' rest
          | None => None
          end
      | File => None
      end
  end.

Fixpoint walk (n : Node) (comps : list string) : Node + Errno :=
  match comps with
  | [] => inl n
  | c :: rest =>
      match n with
      | Dir entries =>
          match entry c entries with
          | Some n' => walk n' rest
          | None => inr ENOENT
          end
      | File => inr ENOTDIR
      end
  end.

(** [os.Stat(name)] on the tree under [root]. *)
Definition Stat (root : Node) (name : string) : StatResult :=
  match walk root (components name "") with
  | inl n => StatOk (is_dir n)
  | inr ENOENT => StatNotExist
  | inr ENOTDIR => StatError ("stat " +:+ name +:+ ": not a directory")
  end.

(** The tree of the sample world: the directory [/work/kcl] and the
    regular file [/work/main.k]. *)
Definition sample : Node :=
  Dir (Entry "work" (Dir (Entry "kcl" (Dir NoEntry) (Entry "main.k" File NoEntry)))
         NoEntry).

(** Changing into a directory that is not there. *)
Definition no_chdir (dir : string) : exec.Process :=
  {| exec.lookpath_err := None;
     exec.start_err := Some ("chdir " +:+ dir +:+ ": not a directory");
     exec.writes := []; exec.exit_time := 0; exec.exit_status := 0 |}.

End fs.

(** * Properties *)

(** ** Test vectors for the library functions *)

Example sha256_abc :
  hex.EncodeToString (sha256.Sum256 "abc")
  = "ba7816bf8f01cfea414140de5dae2223b00361a396177a9cb410ff61f20015ad".
Proof. vm_compute. reflexivity. Qed.

Example sha256_empty :
  hex.EncodeToString (sha256.Sum256 "")
  = "e3b0c44298fc1c149afbf4c8996fb92427ae41e4649b934ca495991b7852b855".
Proof. vm_compute. reflexivity. Qed.

Example sha256_two_blocks :
  hex.EncodeToString
    (sha256.Sum256 "abcdbcdecdefdefgefghfghighijhijkijkljklmklmnlmnomnopnopq")
  = "248d6a61d20638b8e5c026930c3e6039a33ce45964ff2167f6ecedd419db06c1".
Proof. vm_compute. reflexivity. Qed.

Example TrimSpace_ascii :
  strings_.TrimSpace (String "009" (String "010" " ok  " +:+ String "013" (String "010" "")))
  = "ok".
Proof. reflexivity. Qed.

Example TrimSpace_inner_kept : strings_.TrimSpace " a b " = "a b".
Proof. reflexivity. Qed.

(** A no-break space (U+00A0, bytes C2 A0) is trimmed on both sides. *)
Example TrimSpace_nbsp :
  strings_.TrimSpace (String "194" (String "160" "x" +:+ String "194" (String "160" "")))
  = "x".
Proof. reflexivity. Qed.

(** ** Diagnostics *)

Section Diagnostics.

Lemma Diagnostic_eqb_severity (a b : Diagnostic) :
  Diagnostic_eqb a b = true -> severity a = severity b.
Proof.
  unfold Diagnostic_eqb. destruct (severity a), (severity b); congruence.
Qed.

Lemma HasError_app (ds es : Diagnostics) :
  HasError (ds ++ es) = HasError ds || HasError es.
Proof. unfold HasError. apply existsb_app. Qed.

Lemma Contains_error (ds : Diagnostics) (d : Diagnostic) :
  Contains ds d = true -> severity d = SeverityError -> HasError ds = true.
Proof.
  unfold Contains, HasError. intros Hc Hs.
  apply existsb_exists in Hc as (e & Hin & Heq).
  apply existsb_exists. exists e. split; [exact Hin|].
  apply Diagnostic_eqb_severity in Heq. rewrite <- Heq, Hs. reflexivity.
Qed.

Lemma HasError_Append (new ds : Diagnostics) :
  HasError (Append ds new) = HasError ds || HasError new.
Proof.
  unfold Append. revert ds.
  induction new as [|d new IH]; intros ds; simpl.
  - now rewrite orb_false_r.
  - rewrite IH. destruct (Contains ds d) eqn:Hc.
    + destruct (severity d) eqn:Hs; simpl; [|reflexivity].
      rewrite (Contains_error _ _ Hc Hs). reflexivity.
    + rewrite HasError_app. simpl. rewrite orb_false_r.
      now rewrite orb_assoc.
Qed.

Lemma HasError_AddError (ds : Diagnostics) (summary detail : string) :
  HasError (AddError ds summary detail) = true.
Proof.
  unfold AddError. rewrite HasError_Append. simpl. apply orb_true_r.
Qed.

Lemma Append_nil (ds : Diagnostics) : Append ds [] = ds.
Proof. reflexivity. Qed.

(** After [AddError] the diagnostic is among the diagnostics. *)
Lemma AddError_In (ds : Diagnostics) (summary detail : string) :
  exists d, In d (AddError ds summary detail)
            /\ severity d = SeverityError
            /\ Summary d = summary /\ Detail d = detail.
Proof.
  unfold AddError, Append. simpl.
  destruct (Contains ds _) eqn:Hc.
  - unfold Contains in Hc. apply existsb_exists in Hc as (e & Hin & Heq).
    exists e. split; [exact Hin|].
    unfold Diagnostic_eqb in Heq. simpl in Heq.
    destruct (severity e); [|discriminate].
    apply andb_true_iff in Heq as [H1 H2].
    apply String.eqb_eq in H1, H2. auto.
  - exists (NewErrorDiagnostic summary detail).
    split; [apply in_or_app; right; now left | auto].
Qed.

End Diagnostics.

(** ** The steps of Create *)

(** C8. When the [timeout] attribute is unset (null), the execution timeout
    is exactly 300 seconds: [timeout_of] is 300 * 10^9 nanoseconds; every
    run that Create starts is bounded by the caller's context cut at that
    duration; a create whose plan decodes and whose directory passes the
    check does make that run, of the resolved command, under that context;
    and when the caller sets no earlier deadline, a tool that starts is
    killed exactly when it has not exited 300 * 10^9 nanoseconds later. *)
Theorem Create_default_timeout
    (w : World) (r : KclExecResource) (ctx : context.Context)
    (req : CreateRequest) (resp : Response) (absPath : string) :
  Timeout (Plan req) = Null ->
  HasError (Plan_Get_diags req) = false ->
  filepath_Abs w (ValueString (SourceDir (Plan req))) = inl absPath ->
  IsNotExist (os_Stat w absPath) = false ->
  HasError (fst (decode_args (Plan req))) = false ->
  HasError (fst (decode_env (Plan req))) = false ->
  let cmd := {| exec.Name := kclCommand_of r;
                exec.Args := snd (decode_args (Plan req));
                exec.Dir := absPath;
                exec.Env := append_env w (os_Environ w) (snd (decode_env (Plan req))) |} in
  let c := context.WithTimeout ctx 300000000000 in
  timeout_of (Plan req) = 300 * time.Second
  /\ time.Second = 1000000000
  /\ (forall cmd' c' out err,
        In (CallRun cmd' c' out err) (snd (Create w r ctx req resp)) -> c' = c)
  /\ snd (Create w r ctx req new_Response)
     = full_trace (ValueString (SourceDir (Plan req))) cmd c
         (fst (exec.CombinedOutput c (spawn w cmd)))
         (snd (exec.CombinedOutput c (spawn w cmd)))
  /\ (context.remaining ctx = None ->
      context.remaining c = Some 300000000000
      /\ (exec.lookpath_err (spawn w cmd) = None ->
          exec.start_err (spawn w cmd) = None ->
          (snd (exec.CombinedOutput c (spawn w cmd)) = Some exec.ErrKilled
           <-> 300000000000 <= exec.exit_time (spawn w cmd)))).
Proof.
  intros Hnull Hplan Habs Hstat Hargs Henv. cbv zeta.
  assert (Ht : timeout_of (Plan req) = 300000000000).
  { unfold timeout_of. rewrite Hnull. reflexivity. }
  split; [exact Ht|]. split; [reflexivity|]. split; [|split].
  - intros cmd' c' out err. rewrite <- Ht. clear.
    create_cases; intros Hin;
      repeat (destruct Hin as [Hin|Hin]; try discriminate Hin);
      try contradiction; now inversion Hin.
  - unfold Create. cbn [resp_Append new_Response Diags State].
    rewrite HasError_Append, Hplan, Habs, Hstat. cbn [HasError existsb orb].
    destruct (decode_args (Plan req)) as [dargs args].
    destruct (decode_env (Plan req)) as [denv envMap].
    cbn [fst snd] in *. cbn [resp_Append Diags State].
    rewrite !HasError_Append, Hplan, Hargs, Henv. cbn [HasError existsb orb].
    rewrite Ht.
    destruct (exec.CombinedOutput _ _) as [output [e|]]; reflexivity.
  - intros Hctx. unfold context.WithTimeout. rewrite Hctx. cbn [context.remaining].
    split; [reflexivity|]. intros Hlook Hstart.
    unfold exec.CombinedOutput, context.Done, context.before.
    cbn [context.remaining]. rewrite Hlook, Hstart.
    change (300000000000 <=? 0) with false. cbv iota.
    destruct (exec.exit_time _ <? 300000000000) eqn:Hlt; cbn [snd].
    + apply Z.ltb_lt in Hlt.
      split; [|lia]. destruct (exec.exit_status _ =? 0); discriminate.
    + apply Z.ltb_ge in Hlt. split; [intros _; exact Hlt|reflexivity].
Qed.

Lemma Create_default_timeout_witness :
  let w := Sample.world ["A=1"] [] Sample.sleeper in
  let req := Sample.request (Sample.model "kcl" Null Null Null) in
  let cmd := {| exec.Name := "/usr/local/bin/kcl"; exec.Args := [];
                exec.Dir := "/work/kcl"; exec.Env := ["A=1"] |} in
  let c := context.WithTimeout context.Background 300000000000 in
  timeout_of (Plan req) = 300 * time.Second
  /\ time.Second = 1000000000
  /\ (forall cmd' c' out err,
        In (CallRun cmd' c' out err)
           (snd (Create w Sample.resource context.Background req new_Response)) ->
        c' = c)
  /\ snd (Create w Sample.resource context.Background req new_Response)
     = full_trace "kcl" cmd c ("started" +:+ nl) (Some exec.ErrKilled)
  /\ (context.remaining context.Background = None ->
      context.remaining c = Some 300000000000
      /\ (exec.lookpath_err (spawn w cmd) = None ->
          exec.start_err (spawn w cmd) = None ->
          (snd (exec.CombinedOutput c (spawn w cmd)) = Some exec.ErrKilled
           <-> 300000000000 <= exec.exit_time (spawn w cmd)))).
Proof.
  apply (Create_default_timeout (Sample.world ["A=1"] [] Sample.sleeper) Sample.resource
           context.Background
           (Sample.request (Sample.model "kcl" Null Null Null)) new_Response
           "/work/kcl"); reflexivity.
Defined.

(** With the default, a tool that takes ten minutes is killed after five,
    and one that ends within a millisecond runs to its end. *)
Example Create_default_timeout_run :
  snd (Create (Sample.world [] [] Sample.sleeper) Sample.resource context.Background
         (Sample.request (Sample.model "kcl" Null Null Null)) new_Response)
  = [CallAbs "kcl"; CallStat "/work/kcl"; CallEnviron;
     CallRun {| exec.Name := "/usr/local/bin/kcl"; exec.Args := [];
                exec.Dir := "/work/kcl"; exec.Env := [] |}
       {| context.remaining := Some 300000000000 |}
       ("started" +:+ nl) (Some exec.ErrKilled)]
  /\ snd (Create (Sample.world [] [] Sample.ok) Sample.resource context.Background
            (Sample.request (Sample.model "kcl" Null Null Null)) new_Response)
     = [CallAbs "kcl"; CallStat "/work/kcl"; CallEnviron;
        CallRun {| exec.Name := "/usr/local/bin/kcl"; exec.Args := [];
                   exec.Dir := "/work/kcl"; exec.Env := [] |}
          {| context.remaining := Some 300000000000 |} ("ok" +:+ nl) None].
Proof. split; vm_compute; reflexivity. Qed.

(** ** Update *)

(** C9. Every Update fails with the "Update Not Supported" error (the
    replacement-required diagnostic, [UnsupportedOperationError]) and leaves
    the state of the response, which is the prior state, as it was. *)
Theorem Update_unsupported (resp : Response) :
  State (Update resp) = State resp
  /\ HasError (Diags (Update resp)) = true
  /\ exists d, In d (Diags (Update resp))
               /\ severity d = SeverityError
               /\ kind_of d = Some UnsupportedOperationError
               /\ Detail d = "KCL execution resource does not support updates - changes require replacement".
Proof.
  split; [reflexivity|]. split.
  - apply HasError_AddError.
  - unfold Update, resp_AddError; simpl.
    destruct (AddError_In (Diags resp) "Update Not Supported"
                "KCL execution resource does not support updates - changes require replacement")
      as (d & Hin & Hs & Hsum & Hdet).
    exists d. repeat split; try assumption.
    unfold kind_of. rewrite Hsum. reflexivity.
Qed.

(** ** Create and the persisted state *)

(** The command Create runs, once the plan is decoded. *)
Lemma Create_success_inv
    (w : World) (r : KclExecResource) (ctx : context.Context) (req : CreateRequest)
    (m : KclExecResourceModel) :
  State (fst (Create w r ctx req new_Response)) = Some m ->
  exists absPath dargs args denv envMap output,
    let plan := Plan req in
    let envVars := append_env w (os_Environ w) envMap in
    let cmd := {| exec.Name := kclCommand_of r; exec.Args := args;
                  exec.Dir := absPath; exec.Env := envVars |} in
    let ctx' := context.WithTimeout ctx (timeout_of plan) in
    HasError (Plan_Get_diags req) = false
    /\ filepath_Abs w (ValueString (SourceDir plan)) = inl absPath
    /\ IsNotExist (os_Stat w absPath) = false
    /\ decode_args plan = (dargs, args) /\ HasError dargs = false
    /\ decode_env plan = (denv, envMap) /\ HasError denv = false
    /\ exec.CombinedOutput ctx' (spawn w cmd) = (output, None)
    /\ m = {| ID := Known (generate_id absPath (kclCommand_of r) args envVars);
              SourceDir := SourceDir plan;
              Output := Known (strings_.TrimSpace output);
              Args := Args plan; Triggers := Triggers plan;
              Timeout := Timeout plan; Environment := Environment plan |}
    /\ snd (Create w r ctx req new_Response)
       = [CallAbs (ValueString (SourceDir plan)); CallStat absPath; CallEnviron;
          CallRun cmd ctx' output None].
Proof.
  create_cases; try discriminate.
  intros Hm. injection Hm as <-.
  repeat match goal with
         | H : HasError (Append _ _) = false |- _ =>
             rewrite HasError_Append in H; apply orb_false_iff in H as [? ?]
         end.
  do 6 eexists. repeat split; reflexivity || eassumption.
Qed.

(** C1. Create is atomic with respect to the state: called with the fresh
    response of the host, it leaves a state if and only if the external tool
    was run and the run completed without error, and if and only if no error
    diagnostic was raised; so a create that fails at any stage (path
    resolution, directory check, decoding of the arguments or of the
    environment, execution) leaves no state at all. *)
Theorem Create_atomic
    (w : World) (r : KclExecResource) (ctx : context.Context) (req : CreateRequest) :
  let plan := Plan req in
  let resp := fst (Create w r ctx req new_Response) in
  let calls := snd (Create w r ctx req new_Response) in
  (is_Some (State resp) <-> ran_without_error calls)
  /\ (is_Some (State resp) <-> HasError (Diags resp) = false)
  /\ (HasError (Diags resp) = true -> State resp = None)
  /\ (forall err, filepath_Abs w (ValueString (SourceDir plan)) = inr err ->
      State resp = None)
  /\ (forall absPath, filepath_Abs w (ValueString (SourceDir plan)) = inl absPath ->
      os_Stat w absPath = StatNotExist -> State resp = None)
  /\ (HasError (fst (decode_args plan)) = true -> State resp = None)
  /\ (HasError (fst (decode_env plan)) = true -> State resp = None)
  /\ (forall cmd c out err, In (CallRun cmd c out (Some err)) calls ->
      State resp = None).
Proof.
  cbv zeta.
  assert (Hinv := Create_success_inv w r ctx req).
  split; [|split; [|split]].
  - clear Hinv. unfold ran_without_error.
    create_cases; (split; [intros [? ?]; try discriminate|intros (cmd & c & out & Hin)]);
      try (repeat (destruct Hin as [Hin|Hin]; try discriminate Hin); contradiction).
    + do 3 eexists; do 3 right; left; reflexivity.
    + eexists; reflexivity.
  - clear Hinv.
    create_cases;
      repeat match goal with
             | |- context [HasError (AddError ?d ?s ?t)] => rewrite (HasError_AddError d s t)
             | H : HasError ?d = _ |- context [HasError ?d] => rewrite H
             end;
      (split; [intros [? ?]; try discriminate|try discriminate]).
    + reflexivity.
    + intros _; eexists; reflexivity.
  - clear Hinv.
    create_cases;
      repeat match goal with
             | |- context [HasError (AddError ?d ?s ?t)] => rewrite (HasError_AddError d s t)
             | H : HasError ?d = _ |- context [HasError ?d] => rewrite H
             end; try reflexivity; discriminate.
  - destruct (State (fst (Create w r ctx req new_Response))) as [m|] eqn:Hst;
      [|repeat split; reflexivity].
    destruct (Hinv m eq_refl)
      as (absPath & dargs & args & denv & envMap & output & H); cbv zeta in H.
    destruct H as (_ & Habs & Hstat & Hargs & Hdargs & Henv & Hdenv & _ & _ & Hcalls).
    repeat split.
    + intros err He. rewrite He in Habs. discriminate.
    + intros p Hp Hs. rewrite Hp in Habs. injection Habs as ->.
      rewrite Hs in Hstat. discriminate.
    + rewrite Hargs. simpl. rewrite Hdargs. discriminate.
    + rewrite Henv. simpl. rewrite Hdenv. discriminate.
    + intros cmd c out err Hin. rewrite Hcalls in Hin.
      repeat (destruct Hin as [Hin|Hin]; try discriminate Hin). contradiction.
Qed.

(** ** The directory check *)

Lemma walk_resolve (comps : list string) (n m : fs.Node) :
  fs.walk n comps = inl m <-> fs.resolve n comps = Some m.
Proof.
  revert n. induction comps as [|c rest IH]; intros n; simpl.
  - split; intros [= ->]; reflexivity.
  - destruct n as [|entries]; [split; discriminate|].
    destruct (fs.entry c entries) as [n'|]; [apply IH|split; discriminate].
Qed.

Lemma walk_missing (comps : list string) (n : fs.Node) (e : fs.Errno) :
  fs.walk n comps = inr e -> fs.resolve n comps = None.
Proof.
  revert n. induction comps as [|c rest IH]; intros n; simpl.
  - discriminate.
  - destruct n as [|entries]; [reflexivity|].
    destruct (fs.entry c entries) as [n'|]; [apply IH|reflexivity].
Qed.

(** C6, as the code has it. When [os.Stat] reports that the resolved
    absolute path does not exist, Create fails with the "Directory Not
    Found" error ([DirectoryNotFoundError]) and leaves no state; the only
    calls made are the path resolution and the [os.Stat], so nothing is
    created and nothing is run. No stronger check is made: a path that
    exists is treated the same whether it is a directory or a file, and a
    path on which [os.Stat] fails in another way passes the check as well.
    Over a file tree, [os.Stat] reports "does not exist" exactly when an
    entry is missing from a directory of the path ([ENOENT]), and the path
    is then indeed missing. *)
Theorem Create_directory_not_found
    (w : World) (r : KclExecResource) (ctx : context.Context) (req : CreateRequest)
    (absPath : string) :
  HasError (Plan_Get_diags req) = false ->
  filepath_Abs w (ValueString (SourceDir (Plan req))) = inl absPath ->
  let resp := fst (Create w r ctx req new_Response) in
  let calls := snd (Create w r ctx req new_Response) in
  (os_Stat w absPath = StatNotExist ->
   State resp = None
   /\ (exists d, In d (Diags resp)
                 /\ severity d = SeverityError
                 /\ kind_of d = Some DirectoryNotFoundError
                 /\ Detail d = "Source directory does not exist: " +:+ absPath)
   /\ calls = [CallAbs (ValueString (SourceDir (Plan req))); CallStat absPath])
  /\ (forall is_dir, os_Stat w absPath = StatOk is_dir ->
      Create w r ctx req new_Response
      = Create (with_Stat w (fun _ => StatOk true)) r ctx req new_Response)
  /\ (forall msg, os_Stat w absPath = StatError msg ->
      Create w r ctx req new_Response
      = Create (with_Stat w (fun _ => StatOk true)) r ctx req new_Response)
  /\ (forall root, os_Stat w absPath = fs.Stat root absPath ->
      (IsNotExist (os_Stat w absPath) = true
       <-> fs.walk root (fs.components absPath "") = inr fs.ENOENT)
      /\ (IsNotExist (os_Stat w absPath) = true ->
          fs.resolve root (fs.components absPath "") = None)).
Proof.
  intros Hplan Habs. cbv zeta.
  assert (Hplan' : HasError (Append [] (Plan_Get_diags req)) = false)
    by (rewrite HasError_Append; exact Hplan).
  split; [|split; [|split]].
  - intros Hstat. unfold Create. simpl. rewrite Hplan', Habs, Hstat. simpl.
    split; [reflexivity|]. split; [|reflexivity].
    destruct (AddError_In (Append [] (Plan_Get_diags req)) "Directory Not Found"
                ("Source directory does not exist: " +:+ absPath))
      as (d & Hin & Hs & Hsum & Hdet).
    exists d. repeat split; try assumption.
    unfold kind_of. rewrite Hsum. reflexivity.
  - intros is_dir Hstat. unfold Create. simpl.
    rewrite Hplan', Habs, Hstat. reflexivity.
  - intros msg Hstat. unfold Create. simpl.
    rewrite Hplan', Habs, Hstat. reflexivity.
  - intros root Hroot. rewrite Hroot. unfold fs.Stat.
    destruct (fs.walk root (fs.components absPath "")) as [n|[|]] eqn:Hwalk;
      cbn [IsNotExist].
    + split; [split; discriminate|discriminate].
    + split; [split; reflexivity|]. intros _. exact (walk_missing _ _ _ Hwalk).
    + split; [split; discriminate|discriminate].
Qed.

Lemma Create_directory_not_found_witness :
  let w := with_Stat (Sample.world ["A=1"] [] Sample.ok) (fs.Stat fs.sample) in
  let req := Sample.request (Sample.model "nope" Null Null Null) in
  let resp := fst (Create w Sample.resource context.Background req new_Response) in
  let calls := snd (Create w Sample.resource context.Background req new_Response) in
  HasError (Plan_Get_diags req) = false
  /\ filepath_Abs w "nope" = inl "/work/nope"
  /\ os_Stat w "/work/nope" = StatNotExist
  /\ fs.resolve fs.sample ["work"; "nope"] = None
  /\ State resp = None
  /\ (exists d, In d (Diags resp)
                /\ severity d = SeverityError
                /\ kind_of d = Some DirectoryNotFoundError
                /\ Detail d = "Source directory does not exist: " +:+ "/work/nope")
  /\ calls = [CallAbs "nope"; CallStat "/work/nope"].
Proof.
  cbv zeta. split; [reflexivity|]. split; [reflexivity|]. split; [reflexivity|].
  split; [reflexivity|].
  apply (proj1 (Create_directory_not_found
                  (with_Stat (Sample.world ["A=1"] [] Sample.ok) (fs.Stat fs.sample))
                  Sample.resource context.Background
                  (Sample.request (Sample.model "nope" Null Null Null)) "/work/nope"
                  eq_refl eq_refl)).
  reflexivity.
Defined.

(** C6, as stated, fails. In the sample tree [/work/main.k] is a regular
    file, so the path [/work/main.k/sub] does not exist; [os.Stat] fails on
    it with "not a directory", which is not "does not exist" for
    [os.IsNotExist], and Create goes on: no "Directory Not Found" is
    raised, the tool is started in that path, and the create fails at the
    start of the process with "KCL Execution Failed". *)
Lemma Create_directory_missing_under_file :
  let w := with_spawn
             (with_Stat (Sample.world ["A=1"] [] Sample.ok) (fs.Stat fs.sample))
             (fun cmd => fs.no_chdir (exec.Dir cmd)) in
  let req := Sample.request (Sample.model "main.k/sub" Null Null Null) in
  let resp := fst (Create w Sample.unconfigured context.Background req new_Response) in
  let calls := snd (Create w Sample.unconfigured context.Background req new_Response) in
  filepath_Abs w "main.k/sub" = inl "/work/main.k/sub"
  /\ fs.components "/work/main.k/sub" "" = ["work"; "main.k"; "sub"]
  /\ fs.resolve fs.sample ["work"; "main.k"] = Some fs.File
  /\ fs.resolve fs.sample ["work"; "main.k"; "sub"] = None
  /\ os_Stat w "/work/main.k/sub" = StatError "stat /work/main.k/sub: not a directory"
  /\ IsNotExist (os_Stat w "/work/main.k/sub") = false
  /\ map kind_of (Diags resp) = [Some ExecutionFailedError]
  /\ ~ (exists d, In d (Diags resp) /\ kind_of d = Some DirectoryNotFoundError)
  /\ calls = [CallAbs "main.k/sub"; CallStat "/work/main.k/sub"; CallEnviron;
              CallRun {| exec.Name := "kcl"; exec.Args := [];
                         exec.Dir := "/work/main.k/sub"; exec.Env := ["A=1"] |}
                {| context.remaining := Some 300000000000 |} ""
                (Some (exec.ErrStart "chdir /work/main.k/sub: not a directory"))].
Proof.
  cbv zeta. repeat (split; [vm_compute; reflexivity|]). split.
  - intros (d & Hin & Hk). vm_compute in Hin. destruct Hin as [<-|[]].
    vm_compute in Hk. discriminate.
  - vm_compute. reflexivity.
Qed.

(** The path [/work/nope] does not exist in the sample world, and Create
    stops at the check. *)
Example Create_missing_directory :
  Create (Sample.world ["A=1"] [] Sample.ok) Sample.resource context.Background
    (Sample.request (Sample.model "nope" Null Null Null)) new_Response
  = ({| State := None;
        Diags := [NewErrorDiagnostic "Directory Not Found"
                    "Source directory does not exist: /work/nope"] |},
     [CallAbs "nope"; CallStat "/work/nope"]).
Proof. reflexivity. Qed.

(** A regular file passes the check: the tool is started in it. *)
Example Create_regular_file_passes :
  os_Stat (Sample.world [] [] Sample.ok) "/work/main.k" = StatOk false
  /\ exists cmd c out err,
       In (CallRun cmd c out err)
          (snd (Create (Sample.world [] [] Sample.ok) Sample.resource context.Background
                  (Sample.request (Sample.model "main.k" Null Null Null)) new_Response))
       /\ exec.Dir cmd = "/work/main.k".
Proof.
  split; [reflexivity|]. do 4 eexists. split.
  - vm_compute. do 3 right. left. reflexivity.
  - reflexivity.
Qed.

(** ** The digest and its encoding *)

Section Digest.

Lemma land_255_byte (x : Z) : is_byte (Z.land x 255).
Proof.
  unfold is_byte. change 255 with (Z.ones 8).
  rewrite Z.land_ones by lia. apply Z.mod_pos_bound. lia.
Qed.

Lemma be32_length (x : Z) : length (sha256.be32 x) = 4%nat.
Proof. reflexivity. Qed.

Lemma be32_bytes (x : Z) : Forall is_byte (sha256.be32 x).
Proof.
  unfold sha256.be32. simpl. repeat constructor; apply land_255_byte.
Qed.

(** A digest is 32 bytes, whatever the data. *)
Lemma Sum256_length (data : string) : length (sha256.Sum256 data) = 32%nat.
Proof.
  unfold sha256.Sum256. cbv zeta.
  repeat rewrite length_app. repeat rewrite be32_length. reflexivity.
Qed.

Lemma Sum256_bytes (data : string) : Forall is_byte (sha256.Sum256 data).
Proof.
  unfold sha256.Sum256. cbv zeta.
  repeat (apply Forall_app; split); apply be32_bytes.
Qed.

Lemma digit_is_hex (n : Z) : 0 <= n < 16 -> is_hex_digit (hex.digit n) = true.
Proof.
  intros Hn. nibble_cases n.
Qed.

Lemma EncodeToString_length (src : list Z) :
  String.length (hex.EncodeToString src) = (2 * length src)%nat.
Proof. induction src as [|v r IH]; simpl; [reflexivity|]. rewrite IH. lia. Qed.

Lemma EncodeToString_hex (src : list Z) :
  Forall is_byte src -> all_chars is_hex_digit (hex.EncodeToString src) = true.
Proof.
  induction 1 as [|v r Hv _ IH]; simpl; [reflexivity|].
  unfold is_byte in Hv.
  rewrite IH, !digit_is_hex; try reflexivity.
  - change 15 with (Z.ones 4). rewrite Z.land_ones by lia.
    apply Z.mod_pos_bound. lia.
  - rewrite Z.shiftr_div_pow2 by lia. change (2 ^ 4) with 16.
    split; [apply Z.div_pos; lia | apply Z.div_lt_upper_bound; lia].
Qed.

(** An id is 32 lower-case hexadecimal characters. *)
Lemma generate_id_shape (absPath kclCommand : string) (args envVars : list string) :
  String.length (generate_id absPath kclCommand args envVars) = 32%nat
  /\ all_chars is_hex_digit (generate_id absPath kclCommand args envVars) = true.
Proof.
  unfold generate_id. cbv zeta. split.
  - rewrite EncodeToString_length, length_take, Sum256_length. reflexivity.
  - apply EncodeToString_hex, Forall_take, Sum256_bytes.
Qed.

End Digest.

(** ** The id and the output of a successful create *)

(** C5. For every successful create the id is the hexadecimal encoding of
    the first 16 bytes of the SHA-256 digest of the four inputs joined with
    a pipe, [absPath|kclCommand|args|envVars] with the two vectors printed
    by [%v]; it is exactly 32 hexadecimal characters, and it is a function
    of the four inputs of the run that was made, and of nothing else. *)
Theorem Create_id
    (w : World) (r : KclExecResource) (ctx : context.Context) (req : CreateRequest)
    (m : KclExecResourceModel) :
  State (fst (Create w r ctx req new_Response)) = Some m ->
  exists cmd c out id,
    In (CallRun cmd c out None) (snd (Create w r ctx req new_Response))
    /\ ID m = Known id
    /\ id = generate_id (exec.Dir cmd) (exec.Name cmd) (exec.Args cmd) (exec.Env cmd)
    /\ id = hex.EncodeToString
              (take 16 (sha256.Sum256
                 (exec.Dir cmd +:+ "|" +:+ exec.Name cmd +:+ "|" +:+
                  fmt_v (exec.Args cmd) +:+ "|" +:+ fmt_v (exec.Env cmd))))
    /\ String.length id = 32%nat
    /\ all_chars is_hex_digit id = true.
Proof.
  intros Hst.
  destruct (Create_success_inv w r ctx req m Hst)
    as (absPath & dargs & args & denv & envMap & output & H); cbv zeta in H.
  destruct H as (_ & _ & _ & _ & _ & _ & _ & _ & -> & Hcalls).
  eexists; eexists; eexists; eexists.
  split; [rewrite Hcalls; do 3 right; left; reflexivity|].
  cbn [exec.Dir exec.Name exec.Args exec.Env ID].
  split; [reflexivity|]. split; [reflexivity|]. split; [reflexivity|].
  apply generate_id_shape.
Qed.

Lemma Create_id_witness :
  exists cmd c out id,
    In (CallRun cmd c out None)
       (snd (Create (Sample.world ["A=1"] [] Sample.ok) Sample.resource context.Background
               (Sample.request (Sample.model "kcl" (Known [Known "-o"; Known "out.json"])
                                  Null Null))
               new_Response))
    /\ Known "81d556b4bb247d86ce4b63563527e07f" = Known id
    /\ id = generate_id (exec.Dir cmd) (exec.Name cmd) (exec.Args cmd) (exec.Env cmd)
    /\ id = hex.EncodeToString
              (take 16 (sha256.Sum256
                 (exec.Dir cmd +:+ "|" +:+ exec.Name cmd +:+ "|" +:+
                  fmt_v (exec.Args cmd) +:+ "|" +:+ fmt_v (exec.Env cmd))))
    /\ String.length id = 32%nat
    /\ all_chars is_hex_digit id = true.
Proof.
  apply (Create_id (Sample.world ["A=1"] [] Sample.ok) Sample.resource context.Background
           (Sample.request (Sample.model "kcl" (Known [Known "-o"; Known "out.json"])
                              Null Null))
           {| ID := Known "81d556b4bb247d86ce4b63563527e07f";
              SourceDir := Known "kcl"; Output := Known "ok";
              Args := Known [Known "-o"; Known "out.json"];
              Triggers := Null; Timeout := Null; Environment := Null |}).
  vm_compute. reflexivity.
Defined.

Lemma CombinedOutput_success_inv (ctx : context.Context) (p : exec.Process) (out : string) :
  exec.CombinedOutput ctx p = (out, None) ->
  exec.lookpath_err p = None /\ context.Done ctx = false /\ exec.start_err p = None
  /\ context.before ctx (exec.exit_time p) = true
  /\ exec.exit_status p = 0
  /\ out = exec.written (exec.writes p).
Proof.
  unfold exec.CombinedOutput.
  destruct (exec.lookpath_err p); [discriminate|].
  destruct (context.Done ctx); [discriminate|].
  destruct (exec.start_err p); [discriminate|].
  destruct (context.before ctx (exec.exit_time p)); [|discriminate].
  destruct (exec.exit_status p =? 0) eqn:Hz; [|discriminate].
  intros H. injection H as <-. apply Z.eqb_eq in Hz. auto 6.
Qed.

Lemma Create_ran_state
    (w : World) (r : KclExecResource) (ctx : context.Context) (req : CreateRequest) :
  ran_without_error (snd (Create w r ctx req new_Response)) ->
  is_Some (State (fst (Create w r ctx req new_Response))).
Proof.
  unfold ran_without_error.
  create_cases; intros (cmd & c & out & Hin);
    try (repeat (destruct Hin as [Hin|Hin]; try discriminate Hin); contradiction).
  eexists; reflexivity.
Qed.

(** A tool that prints [hello] to standard output and then [world] to
    standard error leaves the output [hello], a line feed, [world]. *)
Example Create_output_hello_world :
  exists m,
    State (fst (Create (Sample.world ["A=1"] [] (Sample.hello 0)) Sample.unconfigured
                  context.Background
                  (Sample.request (Sample.model "kcl" Null Null Null)) new_Response))
    = Some m
    /\ Output m = Known ("hello" +:+ nl +:+ "world").
Proof. eexists. split; vm_compute; reflexivity. Qed.

(** ** Timeouts *)

(** Every run among the calls of Create is the run of the resolved command
    under the caller's context cut at the timeout, and a run that fails
    leaves the "KCL Execution Failed" error and no state. *)
Lemma Create_run_inv
    (w : World) (r : KclExecResource) (ctx : context.Context) (req : CreateRequest)
    (cmd : exec.Cmd) (c : context.Context) (out : string) (err : option exec.Error) :
  In (CallRun cmd c out err) (snd (Create w r ctx req new_Response)) ->
  c = context.WithTimeout ctx (timeout_of (Plan req))
  /\ exec.Name cmd = kclCommand_of r
  /\ exec.CombinedOutput c (spawn w cmd) = (out, err)
  /\ match err with
     | Some e =>
         State (fst (Create w r ctx req new_Response)) = None
         /\ exists ds,
              HasError ds = false
              /\ Diags (fst (Create w r ctx req new_Response))
                 = AddError ds "KCL Execution Failed"
                     (execution_failed_detail (exec.Name cmd) (exec.Args cmd) e out)
     | None => is_Some (State (fst (Create w r ctx req new_Response)))
     end.
Proof.
  create_cases; intros Hin;
    repeat (destruct Hin as [Hin|Hin]; try discriminate Hin); try contradiction;
    inversion Hin; subst; cbn [exec.Name exec.Args].
  - repeat split; try assumption. eexists. split; [eassumption|reflexivity].
  - repeat split; try assumption. eexists. reflexivity.
Qed.

(** A process that has not exited when the context is done is reported as
    failed, with at most what it wrote before the deadline. *)
Lemma CombinedOutput_deadline (ctx : context.Context) (p : exec.Process) (d : Z)
    (out : string) (err : option exec.Error) :
  context.remaining ctx = Some d -> d <= exec.exit_time p ->
  exec.CombinedOutput ctx p = (out, err) ->
  (exists e, err = Some e)
  /\ (out = "" \/ out = exec.written_before d (exec.writes p)).
Proof.
  intros Hd Hle. unfold exec.CombinedOutput, context.Done, context.before.
  rewrite Hd.
  destruct (exec.lookpath_err p); [intros [= <- <-]; eauto|].
  destruct (d <=? 0); [intros [= <- <-]; eauto|].
  destruct (exec.start_err p); [intros [= <- <-]; eauto|].
  destruct (exec.exit_time p <? d) eqn:Hlt; [apply Z.ltb_lt in Hlt; lia|].
  intros [= <- <-]; eauto.
Qed.

(** C3, as the code has it. When the tool was started by Create and has not
    exited by the time the configured timeout elapses, the create fails with
    the same "KCL Execution Failed" error as every other failed run
    ([ExecutionFailedError]; the resource has no error of its own for a
    timeout), it leaves no state, and the output reported in the error is at
    most what the tool wrote before the deadline, which is the timeout or
    the earlier deadline of the caller. *)
Theorem Create_timeout
    (w : World) (r : KclExecResource) (ctx : context.Context) (req : CreateRequest)
    (cmd : exec.Cmd) (c : context.Context) (out : string) (err : option exec.Error) :
  In (CallRun cmd c out err) (snd (Create w r ctx req new_Response)) ->
  timeout_of (Plan req) <= exec.exit_time (spawn w cmd) ->
  State (fst (Create w r ctx req new_Response)) = None
  /\ (exists e d,
        err = Some e
        /\ In d (Diags (fst (Create w r ctx req new_Response)))
        /\ severity d = SeverityError
        /\ Summary d = "KCL Execution Failed"
        /\ kind_of d = Some ExecutionFailedError
        /\ Detail d = execution_failed_detail (kclCommand_of r) (exec.Args cmd) e out)
  /\ (exists t,
        context.remaining c = Some t /\ t <= timeout_of (Plan req)
        /\ (out = "" \/ out = exec.written_before t (exec.writes (spawn w cmd)))).
Proof.
  intros Hin Hlate.
  destruct (Create_run_inv w r ctx req cmd c out err Hin) as (Hc & Hname & Hrun & Hres).
  assert (Ht : exists t, context.remaining c = Some t /\ t <= timeout_of (Plan req)).
  { rewrite Hc. unfold context.WithTimeout. cbn [context.remaining].
    destruct (context.remaining ctx) as [p|]; eexists; (split; [reflexivity|lia]). }
  destruct Ht as (t & Hrem & Hle).
  destruct (CombinedOutput_deadline c (spawn w cmd) t out err Hrem ltac:(lia) Hrun)
    as ((e & ->) & Hout).
  destruct Hres as (Hst & ds & _ & Hds).
  split; [exact Hst|]. split.
  - destruct (AddError_In ds "KCL Execution Failed"
                (execution_failed_detail (exec.Name cmd) (exec.Args cmd) e out))
      as (d & Hd & Hsev & Hsum & Hdet).
    exists e, d. rewrite Hds, <- Hname.
    repeat split; try assumption.
    unfold kind_of. rewrite Hsum. reflexivity.
  - exists t. auto.
Qed.

Lemma Create_timeout_witness :
  let w := Sample.world ["A=1"] [] Sample.sleeper in
  let req := Sample.request (Sample.model "kcl" Null (Known 1) Null) in
  let cmd := {| exec.Name := "kcl"; exec.Args := []; exec.Dir := "/work/kcl";
                exec.Env := ["A=1"] |} in
  let c := context.WithTimeout context.Background time.Second in
  let out := "started" +:+ nl in
  let err := Some exec.ErrKilled in
  State (fst (Create w Sample.unconfigured context.Background req new_Response)) = None
  /\ (exists e d,
        err = Some e
        /\ In d (Diags (fst (Create w Sample.unconfigured context.Background req
                               new_Response)))
        /\ severity d = SeverityError
        /\ Summary d = "KCL Execution Failed"
        /\ kind_of d = Some ExecutionFailedError
        /\ Detail d = execution_failed_detail (kclCommand_of Sample.unconfigured)
                        (exec.Args cmd) e out)
  /\ (exists t,
        context.remaining c = Some t /\ t <= timeout_of (Plan req)
        /\ (out = "" \/ out = exec.written_before t (exec.writes (spawn w cmd)))).
Proof.
  apply (Create_timeout (Sample.world ["A=1"] [] Sample.sleeper) Sample.unconfigured
           context.Background
           (Sample.request (Sample.model "kcl" Null (Known 1) Null))
           {| exec.Name := "kcl"; exec.Args := []; exec.Dir := "/work/kcl";
              exec.Env := ["A=1"] |}
           (context.WithTimeout context.Background time.Second)
           ("started" +:+ nl) (Some exec.ErrKilled)).
  - vm_compute. do 3 right. left. reflexivity.
  - vm_compute. discriminate.
Defined.

(** C3, as stated, fails. The sample tool sleeps for ten minutes and the
    timeout is one second, so the tool has not completed when the timeout
    elapses; the create then fails with the very diagnostic summary of a run
    that exits with status 3, "KCL Execution Failed", and nothing in the
    response tells a timeout from any other failed run. *)
Lemma Create_timeout_not_distinct :
  let req := Sample.request (Sample.model "kcl" Null (Known 1) Null) in
  let late := fst (Create (Sample.world ["A=1"] [] Sample.sleeper) Sample.unconfigured
                     context.Background req new_Response) in
  let failed := fst (Create (Sample.world ["A=1"] [] (Sample.hello 3)) Sample.unconfigured
                       context.Background req new_Response) in
  timeout_of (Plan req) < exec.exit_time Sample.sleeper
  /\ Diags late
     = [NewErrorDiagnostic "KCL Execution Failed"
          ("Command: kcl " +:+ nl +:+ "Error: signal: killed" +:+ nl +:+
           "Output: started" +:+ nl)]
  /\ map Summary (Diags late) = map Summary (Diags failed)
  /\ map kind_of (Diags late) = [Some ExecutionFailedError]
  /\ ~ (exists d, In d (Diags late) /\ kind_of d = Some TimeoutError).
Proof.
  cbv zeta. split; [reflexivity|]. split; [vm_compute; reflexivity|].
  split; [vm_compute; reflexivity|]. split; [vm_compute; reflexivity|].
  intros (d & Hin & Hk). vm_compute in Hin.
  destruct Hin as [<-|[]]. vm_compute in Hk. discriminate.
Qed.

(** ** The environment *)

Section Environment.

Local Arguments Ascii.eqb : simpl never.
Local Arguments String.eqb : simpl never.

Lemma range_order_Permutation {A} (seeds : list nat) (l : list A) :
  Permutation (range_order seeds l) l.
Proof.
  revert seeds. induction l as [|x l IH]; intros seeds; simpl; [constructor|].
  set (t := range_order (tl seeds) l).
  set (i := Nat.modulo (hd O seeds) (S (length t))).
  rewrite <- Permutation_middle. constructor.
  rewrite take_drop. apply IH.
Qed.

(** An entry [k=v] is read back as [(k, v)] when [k] has no [=]. *)
Lemma split_entry_env_entry (k v : string) :
  contains_byte "=" k = false -> split_entry (env_entry (k, v)) = Some (k, v).
Proof.
  unfold env_entry. simpl. induction k as [|c k IH]; simpl; [reflexivity|].
  destruct (Ascii.eqb "=" c) eqn:Hc; [discriminate|]. intros Hk.
  rewrite Ascii.eqb_sym, Hc, (IH Hk). reflexivity.
Qed.

Lemma getenv_fold (key : string) (env : list string) (acc : option string) :
  fold_left (getenv_step key) env acc
  = match fold_left (getenv_step key) env None with
    | Some v => Some v
    | None => acc
    end.
Proof.
  revert acc. induction env as [|e env IH]; intros acc; simpl; [reflexivity|].
  rewrite IH. rewrite (IH (getenv_step key None e)).
  destruct (fold_left (getenv_step key) env None); [reflexivity|].
  unfold getenv_step. destruct (split_entry e) as [[k v]|]; [|reflexivity].
  destruct (String.eqb k key); reflexivity.
Qed.

(** The last occurrence wins: what is appended overrides what precedes. *)
Lemma getenv_app (key : string) (env1 env2 : list string) :
  getenv (env1 ++ env2) key
  = match getenv env2 key with
    | Some v => Some v
    | None => getenv env1 key
    end.
Proof.
  unfold getenv. rewrite fold_left_app. apply getenv_fold.
Qed.

Lemma getenv_entries (key : string) (l : list (string * string)) :
  NoDup (l.*1) ->
  Forall (fun kv => contains_byte "=" (fst kv) = false) l ->
  getenv (map env_entry l) key = (list_to_map l : gmap string string) !! key.
Proof.
  induction l as [|[k v] l IH]; intros Hnd Hkeys; [reflexivity|].
  apply NoDup_cons in Hnd as [Hk Hnd]. apply Forall_cons in Hkeys as [Hkv Hkeys].
  change (map env_entry ((k, v) :: l)) with ([env_entry (k, v)] ++ map env_entry l).
  rewrite getenv_app, (IH Hnd Hkeys). simpl in Hkv.
  change (list_to_map ((k, v) :: l)) with (<[k:=v]> (list_to_map l : gmap string string)).
  unfold getenv, getenv_step. simpl. rewrite (split_entry_env_entry k v Hkv).
  destruct (String.eqb k key) eqn:Heq.
  - apply String.eqb_eq in Heq as ->. rewrite lookup_insert_eq.
    rewrite (not_elem_of_list_to_map_1 _ _ Hk). reflexivity.
  - apply String.eqb_neq in Heq. rewrite lookup_insert_ne by exact Heq.
    destruct (list_to_map l !! key); reflexivity.
Qed.

(** The environment of the run, read with the last occurrence winning:
    an entry of the map wins over the ambient environment, provided no
    key of the map has a [=] in it. *)
Lemma getenv_append_env (w : World) (envMap : gmap string string) (key : string) :
  map_Forall (fun k _ => contains_byte "=" k = false) envMap ->
  getenv (append_env w (os_Environ w) envMap) key
  = match envMap !! key with
    | Some v => Some v
    | None => getenv (os_Environ w) key
    end.
Proof.
  intros Hkeys. unfold append_env. rewrite getenv_app.
  assert (Hperm := range_order_Permutation (range_seed w) (map_to_list envMap)).
  set (order := range_order (range_seed w) (map_to_list envMap)) in *.
  assert (Hnd : NoDup (order.*1)).
  { rewrite Hperm. apply NoDup_fst_map_to_list. }
  rewrite getenv_entries.
  - rewrite (list_to_map_proper order (map_to_list envMap) Hnd Hperm).
    rewrite list_to_map_to_list. reflexivity.
  - exact Hnd.
  - rewrite Hperm. apply Forall_forall. intros [k v] Hin. simpl.
    apply elem_of_map_to_list in Hin.
    exact (Hkeys k v Hin).
Qed.

End Environment.

(** The command of a run is the one resolved from the plan. *)
Lemma Create_run_cmd
    (w : World) (r : KclExecResource) (ctx : context.Context) (req : CreateRequest)
    (cmd : exec.Cmd) (c : context.Context) (out : string) (err : option exec.Error) :
  In (CallRun cmd c out err) (snd (Create w r ctx req new_Response)) ->
  exists absPath dargs args denv envMap,
    filepath_Abs w (ValueString (SourceDir (Plan req))) = inl absPath
    /\ decode_args (Plan req) = (dargs, args) /\ HasError dargs = false
    /\ decode_env (Plan req) = (denv, envMap) /\ HasError denv = false
    /\ cmd = {| exec.Name := kclCommand_of r; exec.Args := args; exec.Dir := absPath;
                exec.Env := append_env w (os_Environ w) envMap |}.
Proof.
  create_cases; intros Hin;
    repeat (destruct Hin as [Hin|Hin]; try discriminate Hin); try contradiction;
    inversion Hin; subst;
    repeat match goal with
           | H : HasError (Append _ _) = false |- _ =>
               rewrite HasError_Append in H; apply orb_false_iff in H as [? ?]
           end;
    do 5 eexists; repeat split; reflexivity || eassumption.
Qed.

(** A decoding of the environment without error yields the supplied map:
    nothing when the attribute is null, and otherwise the known string of
    every key. *)
Lemma decode_env_ok (plan : KclExecResourceModel) (denv : Diagnostics)
    (envMap : gmap string string) :
  decode_env plan = (denv, envMap) -> HasError denv = false ->
  match Environment plan with
  | Null => envMap = ∅
  | Unknown => False
  | Known m => forall k, m !! k = Known <$> (envMap !! k)
  end.
Proof.
  unfold decode_env, Map_ElementsAs.
  destruct (Environment plan) as [| |m]; simpl.
  - intros [= <- <-] _. reflexivity.
  - intros [= <- <-]. discriminate.
  - destruct (decide _) as [Hall|_]; intros [= <- <-]; [intros _|discriminate].
    intros k. rewrite lookup_omap.
    destruct (m !! k) as [e|] eqn:Hk; [|reflexivity]. simpl.
    destruct (Hall k e Hk) as [v Hv].
    destruct e; try discriminate. simpl. reflexivity.
Qed.

(** C4, as the code has it. The environment of the run is the ambient
    environment followed by one [key=value] entry for each key of the
    supplied map, in the order the map is ranged over. When no supplied key
    contains [=], reading that vector with the last occurrence winning gives,
    for every key, the supplied value if the key is supplied and the ambient
    value otherwise. *)
Theorem Create_environment
    (w : World) (r : KclExecResource) (ctx : context.Context) (req : CreateRequest)
    (cmd : exec.Cmd) (c : context.Context) (out : string) (err : option exec.Error) :
  In (CallRun cmd c out err) (snd (Create w r ctx req new_Response)) ->
  exists (envMap : gmap string string) (order : list (string * string)),
    match Environment (Plan req) with
    | Null => envMap = ∅
    | Unknown => False
    | Known m => forall k, m !! k = Known <$> (envMap !! k)
    end
    /\ Permutation order (map_to_list envMap)
    /\ exec.Env cmd = os_Environ w ++ map env_entry order
    /\ (map_Forall (fun k _ => contains_byte "=" k = false) envMap ->
        forall key,
          getenv (exec.Env cmd) key
          = match envMap !! key with
            | Some v => Some v
            | None => getenv (os_Environ w) key
            end).
Proof.
  intros Hin.
  destruct (Create_run_cmd w r ctx req cmd c out err Hin)
    as (absPath & dargs & args & denv & envMap & _ & _ & _ & Henv & Hdenv & ->).
  exists envMap, (range_order (range_seed w) (map_to_list envMap)).
  split; [exact (decode_env_ok _ _ _ Henv Hdenv)|].
  split; [apply range_order_Permutation|].
  split; [reflexivity|].
  intros Hkeys key. apply getenv_append_env. exact Hkeys.
Qed.

(** Ambient [A=1] with the overrides [A=2] and [B=3]: the run sees [A=2]
    and [B=3], whatever the order in which the map is ranged over. *)
Lemma Create_environment_witness :
  let w := Sample.world ["A=1"] [1%nat] Sample.ok in
  let env : gmap string (value string) := {[ "A" := Known "2"; "B" := Known "3" ]} in
  let cmd := {| exec.Name := "kcl"; exec.Args := []; exec.Dir := "/work/kcl";
                exec.Env := ["A=1"; "B=3"; "A=2"] |} in
  exists (envMap : gmap string string) (order : list (string * string)),
    (forall k, env !! k = Known <$> (envMap !! k))
    /\ Permutation order (map_to_list envMap)
    /\ exec.Env cmd = os_Environ w ++ map env_entry order
    /\ map_Forall (fun k _ => contains_byte "=" k = false) envMap
    /\ (forall key,
          getenv (exec.Env cmd) key
          = match envMap !! key with
            | Some v => Some v
            | None => getenv (os_Environ w) key
            end)
    /\ getenv (exec.Env cmd) "A" = Some "2"
    /\ getenv (exec.Env cmd) "B" = Some "3".
Proof.
  cbv zeta.
  destruct (Create_environment (Sample.world ["A=1"] [1%nat] Sample.ok)
              Sample.unconfigured context.Background
              (Sample.request
                 (Sample.model "kcl" Null Null
                    (Known {[ "A" := Known "2"; "B" := Known "3" ]})))
              {| exec.Name := "kcl"; exec.Args := []; exec.Dir := "/work/kcl";
                 exec.Env := ["A=1"; "B=3"; "A=2"] |}
              (context.WithTimeout context.Background 300000000000)
              ("ok" +:+ nl) None)
    as (envMap & order & Hmap & Hperm & Henv & Hget).
  - vm_compute. do 3 right. left. reflexivity.
  - cbn [Environment Sample.request Sample.model Plan] in Hmap.
    assert (Hkeys : map_Forall (fun k _ => contains_byte "=" k = false) envMap).
    { intros k v Hk. specialize (Hmap k). rewrite Hk in Hmap. simpl in Hmap.
      destruct (decide (k = "A")) as [->|Ha]; [reflexivity|].
      destruct (decide (k = "B")) as [->|Hb]; [reflexivity|].
      rewrite lookup_insert_ne, lookup_singleton_ne in Hmap by congruence.
      discriminate. }
    exists envMap, order.
    repeat split; try assumption; try reflexivity. apply Hget, Hkeys.
Defined.

(** C4, as stated for every supplied map, fails. With ambient [A=1] and the
    single supplied key [A=B] (value [c]), the key [A] is not supplied, yet
    the appended entry [A=B=c] is an entry for [A]: the ambient [A] does not
    pass through unchanged, and the supplied key is not seen with its value. *)
Lemma Create_environment_key_with_equals :
  let w := Sample.world ["A=1"] [] Sample.ok in
  let env : gmap string (value string) := {[ "A=B" := Known "c" ]} in
  let calls :=
    snd (Create w Sample.unconfigured context.Background
           (Sample.request (Sample.model "kcl" Null Null (Known env))) new_Response) in
  exists cmd c out err,
    In (CallRun cmd c out err) calls
    /\ exec.Env cmd = ["A=1"; "A=B=c"]
    /\ env !! "A" = None
    /\ getenv (os_Environ w) "A" = Some "1"
    /\ getenv (exec.Env cmd) "A" = Some "B=c"
    /\ env !! "A=B" = Some (Known "c")
    /\ getenv (exec.Env cmd) "A=B" = None.
Proof.
  cbv zeta. do 4 eexists. split.
  - vm_compute. do 3 right. left. reflexivity.
  - repeat split; reflexivity.
Qed.

(** ** The id as a function of its inputs *)

Section Identity.

Local Arguments Ascii.eqb : simpl never.

Lemma contains_byte_app (c : ascii) (x y : string) :
  contains_byte c (x +:+ y) = contains_byte c x || contains_byte c y.
Proof.
  induction x as [|d x IH]; simpl; [reflexivity|].
  destruct (Ascii.eqb c d); [reflexivity|exact IH].
Qed.

(** A string is cut in one way only at the first occurrence of [c]. *)
Lemma split_first (c : ascii) (x x' r r' : string) :
  contains_byte c x = false -> contains_byte c x' = false ->
  x +:+ String c r = x' +:+ String c r' -> x = x' /\ r = r'.
Proof.
  revert x'. induction x as [|d x IH]; intros [|d' x']; simpl.
  - intros _ _ [= ->]. auto.
  - destruct (Ascii.eqb c d') eqn:Hc; [discriminate|].
    intros _ _ [= <- _]. rewrite Ascii.eqb_refl in Hc. discriminate.
  - destruct (Ascii.eqb c d) eqn:Hc; [discriminate|].
    intros _ _ [= -> _]. rewrite Ascii.eqb_refl in Hc. discriminate.
  - destruct (Ascii.eqb c d); [discriminate|].
    destruct (Ascii.eqb c d'); [discriminate|].
    intros Hx Hx' [= -> Heq]. destruct (IH x' Hx Hx' Heq) as [-> ->]. auto.
Qed.

Lemma app_inv_last (c : ascii) (x x' : string) :
  x +:+ String c "" = x' +:+ String c "" -> x = x'.
Proof.
  revert x'. induction x as [|d x IH]; intros [|d' x']; simpl.
  - reflexivity.
  - intros [= _ H]. destruct x'; discriminate.
  - intros [= _ H]. destruct x; discriminate.
  - intros [= -> H]. rewrite (IH x' H). reflexivity.
Qed.

Lemma contains_byte_Join (c : ascii) (l : list string) :
  contains_byte c " " = false ->
  Forall (fun a => contains_byte c a = false) l ->
  contains_byte c (Join l " ") = false.
Proof.
  intros Hc. induction 1 as [|a l Ha Hl IH]; [reflexivity|].
  destruct l as [|b l]; [exact Ha|].
  change (Join (a :: b :: l) " ") with (a +:+ " " +:+ Join (b :: l) " ").
  rewrite !contains_byte_app, Ha, Hc, IH. reflexivity.
Qed.

(** [strings.Join] with a space is injective on non-empty elements that
    have no space. *)
Lemma Join_inj (l l' : list string) :
  Forall (fun a => a <> "" /\ contains_byte " " a = false) l ->
  Forall (fun a => a <> "" /\ contains_byte " " a = false) l' ->
  Join l " " = Join l' " " -> l = l'.
Proof.
  intros Hl. revert l'. induction Hl as [|a l [Ha Hsa] Hl IH]; intros l' Hl' Heq.
  - destruct Hl' as [|a' l' [Ha' _] _]; [reflexivity|].
    exfalso. apply Ha'. destruct l'; simpl in Heq.
    + congruence.
    + destruct a'; [reflexivity|discriminate].
  - destruct Hl' as [|a' l' [Ha' Hsa'] Hl'].
    + exfalso. apply Ha. destruct l; simpl in Heq.
      * congruence.
      * destruct a; [reflexivity|discriminate].
    + destruct l as [|b l], l' as [|b' l'].
      * simpl in Heq. congruence.
      * exfalso. change (Join (a' :: b' :: l') " ")
          with (a' +:+ " " +:+ Join (b' :: l') " ") in Heq.
        simpl in Heq. rewrite Heq, contains_byte_app in Hsa.
        simpl in Hsa. rewrite orb_true_r in Hsa. discriminate.
      * exfalso. change (Join (a :: b :: l) " ")
          with (a +:+ " " +:+ Join (b :: l) " ") in Heq.
        simpl in Heq. rewrite <- Heq, contains_byte_app in Hsa'.
        simpl in Hsa'. rewrite orb_true_r in Hsa'. discriminate.
      * change (Join (a :: b :: l) " ")
          with (a +:+ String " " (Join (b :: l) " ")) in Heq.
        change (Join (a' :: b' :: l') " ")
          with (a' +:+ String " " (Join (b' :: l') " ")) in Heq.
        destruct (split_first _ _ _ _ _ Hsa Hsa' Heq) as [-> Hrest].
        rewrite (IH (b' :: l') Hl' Hrest). reflexivity.
Qed.

Lemma fmt_v_inj (l l' : list string) :
  Forall (fun a => a <> "" /\ contains_byte " " a = false) l ->
  Forall (fun a => a <> "" /\ contains_byte " " a = false) l' ->
  fmt_v l = fmt_v l' -> l = l'.
Proof.
  intros Hl Hl'. unfold fmt_v. simpl. intros [= H].
  apply app_inv_last in H. exact (Join_inj l l' Hl Hl' H).
Qed.

(** The joined string determines the four inputs when these are free of
    delimiters. *)
Lemma idInput_inj (a c a' c' : string) (args env args' env' : list string) :
  delimiter_free a c args env -> delimiter_free a' c' args' env' ->
  idInput a c args env = idInput a' c' args' env' ->
  a = a' /\ c = c' /\ args = args' /\ env = env'.
Proof.
  intros (Ha & Hc & Hargs & Henv) (Ha' & Hc' & Hargs' & Henv'). unfold idInput.
  change ("|" +:+ ?s) with (String "|" s). intros H.
  apply split_first in H as [-> H]; [|assumption..].
  apply split_first in H as [-> H]; [|assumption..].
  assert (Hv : forall l,
             Forall (fun a => a <> "" /\ contains_byte " " a = false
                              /\ contains_byte "|" a = false) l ->
             contains_byte "|" (fmt_v l) = false).
  { intros l Hl. unfold fmt_v. rewrite !contains_byte_app, contains_byte_Join.
    - reflexivity.
    - reflexivity.
    - eapply Forall_impl; [exact Hl|]. intros x (_ & _ & Hx). exact Hx. }
  apply split_first in H as [Hfa Hfe]; [|apply Hv; assumption..].
  repeat split.
  - apply fmt_v_inj; [| |exact Hfa];
      (eapply Forall_impl; [eassumption|]; intros x (? & ? & _); auto).
  - apply fmt_v_inj; assumption.
Qed.

End Identity.

Section Encoding.

Lemma fromHexChar_digit (n : Z) : 0 <= n < 16 -> hex.fromHexChar (hex.digit n) = n.
Proof.
  intros Hn. nibble_cases n.
Qed.

Lemma byte_nibbles (v : Z) :
  is_byte v -> 0 <= Z.shiftr v 4 < 16 /\ 0 <= Z.land v 15 < 16
               /\ v = 16 * Z.shiftr v 4 + Z.land v 15.
Proof.
  unfold is_byte. intros Hv.
  rewrite Z.shiftr_div_pow2 by lia. change (2 ^ 4) with 16.
  change 15 with (Z.ones 4). rewrite Z.land_ones by lia. change (2 ^ 4) with 16.
  split; [split; [apply Z.div_pos; lia | apply Z.div_lt_upper_bound; lia]|].
  split; [apply Z.mod_pos_bound; lia | apply Z.div_mod; lia].
Qed.

(** Two byte strings with the same hexadecimal encoding are equal. *)
Lemma EncodeToString_inj (l l' : list Z) :
  Forall is_byte l -> Forall is_byte l' ->
  hex.EncodeToString l = hex.EncodeToString l' -> l = l'.
Proof.
  intros Hl. revert l'. induction Hl as [|v l Hv Hl IH]; intros l' Hl' Heq.
  - destruct l'; [reflexivity|discriminate].
  - destruct Hl' as [|v' l' Hv' Hl']; [discriminate|].
    simpl in Heq. injection Heq as Hhi Hlo Hrest.
    destruct (byte_nibbles v Hv) as (Hh & Hlw & Hsplit).
    destruct (byte_nibbles v' Hv') as (Hh' & Hlw' & Hsplit').
    apply (f_equal hex.fromHexChar) in Hhi, Hlo.
    rewrite !fromHexChar_digit in Hhi, Hlo by assumption.
    rewrite (IH l' Hl' Hrest).
    f_equal. lia.
Qed.

End Encoding.

(** C2, as stated, fails: the one argument [a b] and the two arguments [a],
    [b] are printed alike, so the two runs have the same id. *)
Lemma generate_id_collision :
  ["a b"] <> ["a"; "b"]
  /\ idInput "/work/kcl" "kcl" ["a b"] ["A=1"] = idInput "/work/kcl" "kcl" ["a"; "b"] ["A=1"]
  /\ generate_id "/work/kcl" "kcl" ["a b"] ["A=1"]
     = generate_id "/work/kcl" "kcl" ["a"; "b"] ["A=1"]
  /\ exists m m',
       State (fst (Create (Sample.world ["A=1"] [] Sample.ok) Sample.unconfigured
                     context.Background
                     (Sample.request (Sample.model "kcl" (Known [Known "a b"]) Null Null))
                     new_Response)) = Some m
       /\ State (fst (Create (Sample.world ["A=1"] [] Sample.ok) Sample.unconfigured
                        context.Background
                        (Sample.request
                           (Sample.model "kcl" (Known [Known "a"; Known "b"]) Null Null))
                        new_Response)) = Some m'
       /\ ID m = ID m'.
Proof.
  split; [discriminate|]. split; [reflexivity|]. split; [reflexivity|].
  do 2 eexists. split; [vm_compute; reflexivity|]. split; vm_compute; reflexivity.
Qed.

(** ** A declared timeout *)

(** A declared number of seconds whose count of nanoseconds fits an [int64]
    is used as it is; the default is for the null attribute only. *)
Lemma timeout_of_declared (plan : KclExecResourceModel) (v : Z) :
  Timeout plan = Known v ->
  -9223372036 <= v <= 9223372036 ->
  timeout_of plan = v * time.Second.
Proof.
  intros Hv Hrange. unfold timeout_of, wrap64, time.Second. rewrite Hv. simpl.
  rewrite (Z.mod_small (v + 2 ^ 63)) by lia.
  replace (v + 2 ^ 63 - 2 ^ 63) with v by lia.
  rewrite Z.mod_small by lia. lia.
Qed.

(** X17. With a declared timeout of zero or less (in that range) the context of
    the run is done before the tool is started: every run fails, and the
    create leaves no state. *)
Lemma Create_nonpositive_timeout
    (w : World) (r : KclExecResource) (ctx : context.Context) (req : CreateRequest)
    (v : Z) :
  Timeout (Plan req) = Known v ->
  -9223372036 <= v <= 0 ->
  State (fst (Create w r ctx req new_Response)) = None
  /\ forall cmd c out err,
       In (CallRun cmd c out err) (snd (Create w r ctx req new_Response)) ->
       context.Done c = true /\ out = "" /\ exists e, err = Some e.
Proof.
  intros Hv Hrange.
  assert (Ht : timeout_of (Plan req) <= 0).
  { rewrite (timeout_of_declared _ v Hv) by lia. unfold time.Second. lia. }
  assert (Hrun : forall cmd c out err,
             In (CallRun cmd c out err) (snd (Create w r ctx req new_Response)) ->
             context.Done c = true /\ out = "" /\ exists e, err = Some e).
  { intros cmd c out err Hin.
    destruct (Create_run_inv w r ctx req cmd c out err Hin) as (Hc & _ & Hout & _).
    assert (Hdone : context.Done c = true).
    { rewrite Hc. unfold context.Done, context.WithTimeout. cbn [context.remaining].
      destruct (context.remaining ctx); apply Z.leb_le; lia. }
    split; [exact Hdone|].
    unfold exec.CombinedOutput in Hout. rewrite Hdone in Hout.
    destruct (exec.lookpath_err (spawn w cmd)); injection Hout as <- <-; eauto. }
  split; [|exact Hrun].
  destruct (State (fst (Create w r ctx req new_Response))) as [m|] eqn:Hst;
    [|reflexivity].
  destruct (Create_success_inv w r ctx req m Hst)
    as (absPath & dargs & args & denv & envMap & output & H); cbv zeta in H.
  destruct H as (_ & _ & _ & _ & _ & _ & _ & _ & _ & Hcalls).
  destruct (Hrun _ _ _ None ltac:(rewrite Hcalls; do 3 right; left; reflexivity))
    as (_ & _ & e & He).
  discriminate.
Qed.

Example Create_timeout_minus_five :
  Create (Sample.world ["A=1"] [] Sample.ok) Sample.unconfigured context.Background
    (Sample.request (Sample.model "kcl" Null (Known (-5)) Null)) new_Response
  = ({| State := None;
        Diags := [NewErrorDiagnostic "KCL Execution Failed"
                    ("Command: kcl " +:+ nl +:+ "Error: context deadline exceeded" +:+ nl
                     +:+ "Output: ")] |},
     [CallAbs "kcl"; CallStat "/work/kcl"; CallEnviron;
      CallRun {| exec.Name := "kcl"; exec.Args := []; exec.Dir := "/work/kcl";
                 exec.Env := ["A=1"] |}
        {| context.remaining := Some (-5000000000) |} "" (Some exec.ErrDeadlineExceeded)]).
Proof. vm_compute. reflexivity. Qed.

(** C10 at the declared timeout -9223372037. The product with [time.Second]
    leaves the range of an [int64] and wraps to 9223372036709551616
    nanoseconds, some 292 years: the context is not expired, the tool runs to
    its end and the create succeeds, although the declared timeout is
    negative. *)
Theorem Create_negative_timeout_wraps :
  let req := Sample.request (Sample.model "kcl" Null (Known (-9223372037)) Null) in
  let res := Create (Sample.world ["A=1"] [] Sample.ok) Sample.unconfigured
               context.Background req new_Response in
  - 2 ^ 63 <= -9223372037 < 0
  /\ timeout_of (Plan req) = 9223372036709551616
  /\ timeout_of (Plan req) <> -9223372037 * time.Second
  /\ HasError (Diags (fst res)) = false
  /\ (exists m, State (fst res) = Some m /\ Output m = Known "ok")
  /\ exists cmd out,
       snd res = [CallAbs "kcl"; CallStat "/work/kcl"; CallEnviron;
                  CallRun cmd {| context.remaining := Some 9223372036709551616 |}
                    out None].
Proof.
  cbv zeta. split; [lia|]. split; [reflexivity|]. split; [vm_compute; discriminate|].
  split; [vm_compute; reflexivity|]. split.
  - eexists. split; vm_compute; reflexivity.
  - do 2 eexists. vm_compute. reflexivity.
Qed.

(** ** The command, Read and Delete *)

(** The command is [kcl] unless the provider was configured with a
    non-empty path, which is then the command. *)
Lemma kclCommand_of_override (p : kclProvider) :
  kclCommand_of {| provider := None |} = "kcl"
  /\ (KclPath p = "" -> kclCommand_of {| provider := Some p |} = "kcl")
  /\ (KclPath p <> "" -> kclCommand_of {| provider := Some p |} = KclPath p).
Proof.
  unfold kclCommand_of. simpl. split; [reflexivity|].
  destruct (String.eqb_spec (KclPath p) ""); split; intros; congruence.
Qed.

(** Read and Delete leave the response as the host prepared it. *)
Lemma Read_Delete_noop (resp : Response) : Read resp = resp /\ Delete resp = resp.
Proof. split; reflexivity. Qed.

(** * Further properties of the resource *)

(** ** Diagnostics are kept *)

Lemma Diagnostic_eqb_eq (a b : Diagnostic) : Diagnostic_eqb a b = true -> a = b.
Proof.
  destruct a as [sa ma da], b as [sb mb db]. unfold Diagnostic_eqb. simpl.
  destruct sa, sb; try discriminate; intros H;
    apply andb_true_iff in H as [H1 H2];
    apply String.eqb_eq in H1, H2; subst; reflexivity.
Qed.

Lemma In_Append (new ds : Diagnostics) (d : Diagnostic) :
  In d (Append ds new) <-> In d ds \/ In d new.
Proof.
  unfold Append. revert ds. induction new as [|e new IH]; intros ds; simpl.
  - tauto.
  - rewrite IH. destruct (Contains ds e) eqn:Hc.
    + unfold Contains in Hc. apply existsb_exists in Hc as (e' & Hin & Heq).
      apply Diagnostic_eqb_eq in Heq as ->. split; [tauto|].
      intros [H|[<-|H]]; tauto.
    + rewrite in_app_iff. simpl. tauto.
Qed.

(** X1. A plan that does not decode, or a response that already holds an
    error, stops Create before anything is done: no call is made outside the
    process, the state of the response is left as it was, and the
    diagnostics are those of the response and of the decoding. *)
Theorem Create_stops_on_error
    (w : World) (r : KclExecResource) (ctx : context.Context)
    (req : CreateRequest) (resp : Response) :
  HasError (Diags resp) || HasError (Plan_Get_diags req) = true ->
  snd (Create w r ctx req resp) = []
  /\ State (fst (Create w r ctx req resp)) = State resp
  /\ forall d, In d (Diags (fst (Create w r ctx req resp)))
               <-> In d (Diags resp) \/ In d (Plan_Get_diags req).
Proof.
  intros Herr. unfold Create. cbn [resp_Append Diags State].
  rewrite HasError_Append, Herr. cbn [fst snd Diags State].
  split; [reflexivity|]. split; [reflexivity|].
  intros d. apply In_Append.
Qed.

Lemma Create_stops_on_error_witness :
  let req := {| Plan := Sample.model "kcl" Null Null Null;
                Plan_Get_diags := [conversion_error] |} in
  let res := Create (Sample.world [] [] Sample.ok) Sample.resource context.Background
               req new_Response in
  snd res = []
  /\ State (fst res) = State new_Response
  /\ forall d, In d (Diags (fst res))
               <-> In d (Diags new_Response) \/ In d (Plan_Get_diags req).
Proof.
  apply (Create_stops_on_error (Sample.world [] [] Sample.ok) Sample.resource
           context.Background
           {| Plan := Sample.model "kcl" Null Null Null;
              Plan_Get_diags := [conversion_error] |} new_Response).
  reflexivity.
Defined.

(** X10. Create never drops a diagnostic: whatever the response held
    before, and whatever the decoding of the plan reported (warnings
    included), is still in the response afterwards, on every path. *)
Theorem Create_keeps_diagnostics
    (w : World) (r : KclExecResource) (ctx : context.Context)
    (req : CreateRequest) (resp : Response) (d : Diagnostic) :
  In d (Diags resp) \/ In d (Plan_Get_diags req) ->
  In d (Diags (fst (Create w r ctx req resp))).
Proof.
  intros Hd. apply (In_Append (Plan_Get_diags req) (Diags resp) d) in Hd.
  create_cases; unfold AddError;
    repeat first [exact Hd | apply In_Append; left].
Qed.

Lemma Create_keeps_diagnostics_witness :
  let warning := NewDiagnostic SeverityWarning "Deprecated" "source_dir is relative" in
  let req := {| Plan := Sample.model "nope" Null Null Null;
                Plan_Get_diags := [warning] |} in
  In warning (Diags (fst (Create (Sample.world [] [] Sample.ok) Sample.resource
                            context.Background req new_Response))).
Proof.
  apply (Create_keeps_diagnostics (Sample.world [] [] Sample.ok) Sample.resource
           context.Background
           {| Plan := Sample.model "nope" Null Null Null;
              Plan_Get_diags := [NewDiagnostic SeverityWarning "Deprecated"
                                   "source_dir is relative"] |}
           new_Response).
  right. left. reflexivity.
Defined.

(** ** The stages before the run *)

(** X2. When the source directory cannot be made absolute, Create fails
    with the "Path Resolution Error" that carries the error of the
    resolution, leaves no state, and has touched nothing: the resolution is
    its only call. *)
Theorem Create_path_resolution_error
    (w : World) (r : KclExecResource) (ctx : context.Context) (req : CreateRequest)
    (err : string) :
  HasError (Plan_Get_diags req) = false ->
  filepath_Abs w (ValueString (SourceDir (Plan req))) = inr err ->
  State (fst (Create w r ctx req new_Response)) = None
  /\ (exists d, In d (Diags (fst (Create w r ctx req new_Response)))
                /\ severity d = SeverityError
                /\ kind_of d = Some PathResolutionError
                /\ Detail d = "Invalid source directory path: " +:+ err)
  /\ snd (Create w r ctx req new_Response)
     = [CallAbs (ValueString (SourceDir (Plan req)))].
Proof.
  intros Hplan Habs.
  assert (Hplan' : HasError (Append [] (Plan_Get_diags req)) = false)
    by (rewrite HasError_Append; exact Hplan).
  unfold Create. simpl. rewrite Hplan', Habs. simpl.
  split; [reflexivity|]. split; [|reflexivity].
  destruct (AddError_In (Append [] (Plan_Get_diags req)) "Path Resolution Error"
              ("Invalid source directory path: " +:+ err))
    as (d & Hin & Hs & Hsum & Hdet).
  exists d. repeat split; try assumption.
  unfold kind_of. rewrite Hsum. reflexivity.
Qed.

Lemma Create_path_resolution_error_witness :
  let w := Sample.lost Sample.ok in
  let req := Sample.request (Sample.model "kcl" Null Null Null) in
  State (fst (Create w Sample.resource context.Background req new_Response)) = None
  /\ (exists d, In d (Diags (fst (Create w Sample.resource context.Background req
                                    new_Response)))
                /\ severity d = SeverityError
                /\ kind_of d = Some PathResolutionError
                /\ Detail d = "Invalid source directory path: "
                              +:+ "getwd: no such file or directory")
  /\ snd (Create w Sample.resource context.Background req new_Response)
     = [CallAbs "kcl"].
Proof.
  apply (Create_path_resolution_error (Sample.lost Sample.ok) Sample.resource
           context.Background (Sample.request (Sample.model "kcl" Null Null Null))
           "getwd: no such file or directory"); reflexivity.
Defined.

(** X3. Only "does not exist" stops Create at the directory check. When
    [os.Stat] fails in another way (permission denied, a file in the place
    of a parent directory), Create goes on exactly as if the directory were
    there, and the tool is started in it. *)
Theorem Create_stat_error_passes
    (w : World) (r : KclExecResource) (ctx : context.Context)
    (req : CreateRequest) (resp : Response) (absPath msg : string) :
  filepath_Abs w (ValueString (SourceDir (Plan req))) = inl absPath ->
  os_Stat w absPath = StatError msg ->
  Create w r ctx req resp
  = Create (with_Stat w (fun _ => StatOk true)) r ctx req resp.
Proof.
  intros Habs Hstat. unfold Create. simpl. rewrite Habs, Hstat. reflexivity.
Qed.

Lemma Create_stat_error_passes_witness :
  let w := with_Stat (Sample.world ["A=1"] [] Sample.ok)
             (fun _ => StatError "stat /work/kcl: permission denied") in
  let req := Sample.request (Sample.model "kcl" Null Null Null) in
  Create w Sample.unconfigured context.Background req new_Response
  = Create (with_Stat w (fun _ => StatOk true)) Sample.unconfigured
      context.Background req new_Response.
Proof.
  apply (Create_stat_error_passes
           (with_Stat (Sample.world ["A=1"] [] Sample.ok)
              (fun _ => StatError "stat /work/kcl: permission denied"))
           Sample.unconfigured context.Background
           (Sample.request (Sample.model "kcl" Null Null Null)) new_Response
           "/work/kcl" "stat /work/kcl: permission denied"); reflexivity.
Defined.

(** With the permission denied on the directory the tool is still started
    in it. *)
Example Create_stat_error_runs :
  exists c out err,
    snd (Create (with_Stat (Sample.world ["A=1"] [] Sample.ok)
                   (fun _ => StatError "stat /work/kcl: permission denied"))
           Sample.unconfigured context.Background
           (Sample.request (Sample.model "kcl" Null Null Null)) new_Response)
    = full_trace "kcl"
        {| exec.Name := "kcl"; exec.Args := []; exec.Dir := "/work/kcl";
           exec.Env := ["A=1"] |} c out err.
Proof. do 3 eexists. vm_compute. reflexivity. Qed.

(** X9. Create runs the tool at most once, and only after the directory
    check: when a run is among its calls, the calls are the resolution of
    the source directory, the [os.Stat] of the directory the run is made in,
    the reading of the environment and that one run, in this order, whether
    the run succeeded or not. *)
Theorem Create_runs_once
    (w : World) (r : KclExecResource) (ctx : context.Context) (req : CreateRequest)
    (cmd : exec.Cmd) (c : context.Context) (out : string) (err : option exec.Error) :
  In (CallRun cmd c out err) (snd (Create w r ctx req new_Response)) ->
  snd (Create w r ctx req new_Response)
  = full_trace (ValueString (SourceDir (Plan req))) cmd c out err
  /\ List.filter is_run (snd (Create w r ctx req new_Response)) = [CallRun cmd c out err]
  /\ filepath_Abs w (ValueString (SourceDir (Plan req))) = inl (exec.Dir cmd)
  /\ IsNotExist (os_Stat w (exec.Dir cmd)) = false.
Proof.
  create_cases; intros Hin;
    repeat (destruct Hin as [Hin|Hin]; try discriminate Hin); try contradiction;
    inversion Hin; subst; cbn [exec.Dir]; repeat split; assumption || reflexivity.
Qed.

Lemma Create_runs_once_witness :
  let w := Sample.world ["A=1"] [] (Sample.hello 3) in
  let req := Sample.request (Sample.model "kcl" Null Null Null) in
  let cmd := {| exec.Name := "kcl"; exec.Args := []; exec.Dir := "/work/kcl";
                exec.Env := ["A=1"] |} in
  let c := context.WithTimeout context.Background 300000000000 in
  let out := "hello" +:+ nl +:+ "world" +:+ nl in
  let err := Some (exec.ErrExit 3) in
  snd (Create w Sample.unconfigured context.Background req new_Response)
  = full_trace "kcl" cmd c out err
  /\ List.filter is_run (snd (Create w Sample.unconfigured context.Background req
                           new_Response))
     = [CallRun cmd c out err]
  /\ filepath_Abs w "kcl" = inl "/work/kcl"
  /\ IsNotExist (os_Stat w "/work/kcl") = false.
Proof.
  apply (Create_runs_once (Sample.world ["A=1"] [] (Sample.hello 3)) Sample.unconfigured
           context.Background (Sample.request (Sample.model "kcl" Null Null Null))
           {| exec.Name := "kcl"; exec.Args := []; exec.Dir := "/work/kcl";
              exec.Env := ["A=1"] |}
           (context.WithTimeout context.Background 300000000000)
           ("hello" +:+ nl +:+ "world" +:+ nl) (Some (exec.ErrExit 3))).
  vm_compute. do 3 right. left. reflexivity.
Defined.

(** ** The command that is run *)

(** X4. From the provider block to the run. The tool that Create starts
    is the [kcl_path] of the provider block when that is a non-empty string
    and the block decoded without error; in every other case (no
    [kcl_path], an empty one, a block that failed to decode, so that the
    resource got no provider) it is [kcl], looked up on the search path.
    Configuring the resource raises no diagnostic. *)
Theorem Create_command_of_configuration
    (version : string) (cfg : ProviderConfigureRequest)
    (w : World) (ctx : context.Context) (req : CreateRequest)
    (cmd : exec.Cmd) (c : context.Context) (out : string) (err : option exec.Error) :
  In (CallRun cmd c out err)
     (snd (Create w (fst (configured_resource version cfg)) ctx req new_Response)) ->
  exec.Name cmd
  = (if HasError (Config_Get_diags cfg) then "kcl"
     else match Config_kcl_path cfg with
          | Known path => if String.eqb path "" then "kcl" else path
          | _ => "kcl"
          end)
  /\ snd (configured_resource version cfg) = [].
Proof.
  intros Hin.
  destruct (Create_run_inv _ _ _ _ _ _ _ _ Hin) as (_ & -> & _).
  unfold configured_resource, Provider_Configure, new_ProviderConfigureResponse.
  cbn [ConfigureDiags ResourceData]. rewrite HasError_Append. cbn [HasError existsb orb].
  destruct (HasError (Config_Get_diags cfg)); [split; reflexivity|].
  destruct (Config_kcl_path cfg) as [| |path]; split; reflexivity.
Qed.

Lemma Create_command_of_configuration_witness :
  let cfg := {| Config_kcl_path := Known "/usr/local/bin/kcl"; Config_Get_diags := [] |} in
  let cmd := {| exec.Name := "/usr/local/bin/kcl"; exec.Args := [];
                exec.Dir := "/work/kcl"; exec.Env := [] |} in
  let run := CallRun cmd (context.WithTimeout context.Background 300000000000)
               ("ok" +:+ nl) None in
  In run (snd (Create (Sample.world [] [] Sample.ok) (fst (configured_resource "1.0.0" cfg))
                 context.Background
                 (Sample.request (Sample.model "kcl" Null Null Null)) new_Response))
  /\ exec.Name cmd = "/usr/local/bin/kcl"
  /\ snd (configured_resource "1.0.0" cfg) = [].
Proof.
  cbv zeta.
  assert (Hin : In (CallRun {| exec.Name := "/usr/local/bin/kcl"; exec.Args := [];
                               exec.Dir := "/work/kcl"; exec.Env := [] |}
                      (context.WithTimeout context.Background 300000000000)
                      ("ok" +:+ nl) None)
                  (snd (Create (Sample.world [] [] Sample.ok)
                          (fst (configured_resource "1.0.0"
                                  {| Config_kcl_path := Known "/usr/local/bin/kcl";
                                     Config_Get_diags := [] |}))
                          context.Background
                          (Sample.request (Sample.model "kcl" Null Null Null))
                          new_Response))).
  { vm_compute. do 3 right. left. reflexivity. }
  split; [exact Hin|].
  exact (Create_command_of_configuration "1.0.0" _ _ _ _ _ _ _ _ Hin).
Defined.

(** X5. Configuring the resource raises an error exactly when the provider
    data is of a foreign type, and then keeps the provider it had; nil data
    changes nothing, and a nil [*kclProvider] leaves the command [kcl]. *)
Theorem Resource_Configure_command
    (r : KclExecResource) (data : ProviderData) (diags : Diagnostics) :
  kclCommand_of (fst (Resource_Configure r data diags))
  = match data with
    | DataKclProvider (Some p) => if String.eqb (KclPath p) "" then "kcl" else KclPath p
    | DataKclProvider None => "kcl"
    | _ => kclCommand_of r
    end
  /\ (HasError (snd (Resource_Configure r data diags)) = true
      <-> HasError diags = true \/ exists type_name, data = DataOther type_name)
  /\ (forall type_name, data = DataOther type_name ->
      exists d, In d (snd (Resource_Configure r data diags))
                /\ Summary d = "Unexpected Provider Data Type"
                /\ Detail d = "Expected *kclProvider, got: " +:+ type_name).
Proof.
  destruct data as [|[p|]|t]; cbn [Resource_Configure fst snd];
    (split; [reflexivity|]); (split; [split|]).
  all: try (intros H; left; exact H).
  all: try (intros [H|[t' Ht']]; [exact H|discriminate Ht']).
  all: try (intros t' Ht'; discriminate Ht').
  - intros _. right. eexists. reflexivity.
  - intros _. apply HasError_AddError.
  - intros t' [= <-].
    destruct (AddError_In diags "Unexpected Provider Data Type"
                ("Expected *kclProvider, got: " +:+ t)) as (d & Hin & _ & Hs & Hd).
    exists d. auto.
Qed.

(** ** Arguments and environment of the run *)

Lemma known_strings_Some (l : list (value string)) (t : list string) :
  known_strings l = Some t -> l = map Known t.
Proof.
  revert t. induction l as [|e l IH]; intros t; simpl.
  - intros [= <-]. reflexivity.
  - destruct e as [| |s]; try discriminate.
    destruct (known_strings l) as [t'|]; [|discriminate].
    intros [= <-]. simpl. rewrite (IH t' eq_refl). reflexivity.
Qed.

Lemma known_strings_None (l : list (value string)) :
  Exists (fun e => known_string e = None) l -> known_strings l = None.
Proof.
  induction 1 as [e l He|e l _ IH]; simpl.
  - destruct e; [reflexivity|reflexivity|discriminate].
  - rewrite IH. destruct e; reflexivity.
Qed.

(** X6. The arguments pass through unchanged: the arguments of the run are
    the strings of the [args] attribute, all of them and in their order, and
    none when the attribute is null. *)
Theorem Create_args_pass_through
    (w : World) (r : KclExecResource) (ctx : context.Context) (req : CreateRequest)
    (cmd : exec.Cmd) (c : context.Context) (out : string) (err : option exec.Error) :
  In (CallRun cmd c out err) (snd (Create w r ctx req new_Response)) ->
  match Args (Plan req) with
  | Null => exec.Args cmd = []
  | Unknown => False
  | Known l => l = map Known (exec.Args cmd)
  end.
Proof.
  intros Hin.
  destruct (Create_run_cmd w r ctx req cmd c out err Hin)
    as (absPath & dargs & args & denv & envMap & _ & Hargs & Hdargs & _ & _ & ->).
  cbn [exec.Args]. unfold decode_args, List_ElementsAs in Hargs.
  destruct (Args (Plan req)) as [| |l]; simpl in Hargs.
  - injection Hargs as _ <-. reflexivity.
  - injection Hargs as <- _. discriminate.
  - destruct (known_strings l) as [t|] eqn:Hl; injection Hargs as <- <-.
    + apply known_strings_Some. exact Hl.
    + discriminate.
Qed.

Lemma Create_args_pass_through_witness :
  let cmd := {| exec.Name := "kcl"; exec.Args := ["-o"; "out.json"; "-d"];
                exec.Dir := "/work/kcl"; exec.Env := [] |} in
  let run := CallRun cmd (context.WithTimeout context.Background 300000000000)
               ("ok" +:+ nl) None in
  let req := Sample.request
               (Sample.model "kcl" (Known [Known "-o"; Known "out.json"; Known "-d"])
                  Null Null) in
  In run (snd (Create (Sample.world [] [] Sample.ok) Sample.unconfigured
                 context.Background req new_Response))
  /\ [Known "-o"; Known "out.json"; Known "-d"] = map Known (exec.Args cmd).
Proof.
  cbv zeta.
  assert (Hin : In (CallRun {| exec.Name := "kcl"; exec.Args := ["-o"; "out.json"; "-d"];
                               exec.Dir := "/work/kcl"; exec.Env := [] |}
                      (context.WithTimeout context.Background 300000000000)
                      ("ok" +:+ nl) None)
                  (snd (Create (Sample.world [] [] Sample.ok) Sample.unconfigured
                          context.Background
                          (Sample.request
                             (Sample.model "kcl"
                                (Known [Known "-o"; Known "out.json"; Known "-d"])
                                Null Null))
                          new_Response))).
  { vm_compute. do 3 right. left. reflexivity. }
  split; [exact Hin|].
  exact (Create_args_pass_through _ _ _ _ _ _ _ _ Hin).
Defined.

(** X7. An argument or an environment value that is null or unknown makes
    the conversion fail: Create raises the error of the conversion, runs
    nothing and leaves no state. *)
Theorem Create_conversion_error
    (w : World) (r : KclExecResource) (ctx : context.Context) (req : CreateRequest) :
  (exists l, Args (Plan req) = Known l
             /\ Exists (fun e => known_string e = None) l)
  \/ (exists m k e, Environment (Plan req) = Known m
                    /\ m !! k = Some e /\ known_string e = None) ->
  State (fst (Create w r ctx req new_Response)) = None
  /\ List.filter is_run (snd (Create w r ctx req new_Response)) = []
  /\ HasError (Diags (fst (Create w r ctx req new_Response))) = true.
Proof.
  intros Hbad.
  assert (Hdec : HasError (fst (decode_args (Plan req))) = true
                 \/ HasError (fst (decode_env (Plan req))) = true).
  { destruct Hbad as [(l & Hl & Hex)|(m & k & e & Hm & Hk & He)].
    - left. unfold decode_args, List_ElementsAs. rewrite Hl. simpl.
      rewrite (known_strings_None l Hex). reflexivity.
    - right. unfold decode_env, Map_ElementsAs. rewrite Hm. simpl.
      destruct (decide _) as [Hall|_]; [|reflexivity].
      destruct (Hall k e Hk) as [v Hv]. congruence. }
  assert (Hst : State (fst (Create w r ctx req new_Response)) = None).
  { destruct (State (fst (Create w r ctx req new_Response))) as [s|] eqn:Hs;
      [|reflexivity].
    destruct (Create_success_inv w r ctx req s Hs)
      as (absPath & dargs & args & denv & envMap & output & H); cbv zeta in H.
    destruct H as (_ & _ & _ & Hargs & Hdargs & Henv & Hdenv & _).
    rewrite Hargs, Henv in Hdec. simpl in Hdec. destruct Hdec; congruence. }
  split; [exact Hst|]. split.
  - destruct (List.filter is_run (snd (Create w r ctx req new_Response)))
      as [|call calls] eqn:Hf; [reflexivity|].
    assert (Hin : In call (List.filter is_run (snd (Create w r ctx req new_Response))))
      by (rewrite Hf; left; reflexivity).
    apply filter_In in Hin as [Hin Hrun].
    destruct call as [| | |cmd c out err]; try discriminate.
    destruct (Create_run_cmd w r ctx req cmd c out err Hin)
      as (absPath & dargs & args & denv & envMap & _ & Hargs & Hdargs & Henv & Hdenv & _).
    rewrite Hargs, Henv in Hdec. simpl in Hdec. destruct Hdec; congruence.
  - destruct (HasError (Diags (fst (Create w r ctx req new_Response)))) eqn:Herr;
      [reflexivity|].
    revert Hst Herr. create_cases; try discriminate;
      repeat match goal with
             | |- context [HasError (AddError ?d ?s ?t)] =>
                 rewrite (HasError_AddError d s t)
             end; try discriminate; congruence.
Qed.

Lemma Create_conversion_error_witness :
  let req := Sample.request
               (Sample.model "kcl" (Known [Known "-o"; Null]) Null Null) in
  let res := Create (Sample.world [] [] Sample.ok) Sample.unconfigured
               context.Background req new_Response in
  State (fst res) = None
  /\ List.filter is_run (snd res) = []
  /\ HasError (Diags (fst res)) = true.
Proof.
  apply (Create_conversion_error (Sample.world [] [] Sample.ok) Sample.unconfigured
           context.Background
           (Sample.request (Sample.model "kcl" (Known [Known "-o"; Null]) Null Null))).
  left. exists [Known "-o"; Null]. split; [reflexivity|].
  apply Exists_cons_tl, Exists_cons_hd. reflexivity.
Defined.

(** ** Failed runs *)

(** X8. When the tool exits on its own with a status other than zero,
    Create fails with "KCL Execution Failed", leaves no state, and reports
    the command, the arguments separated by spaces, [exit status n] and
    everything the tool wrote, untrimmed. *)
Theorem Create_exit_status
    (w : World) (r : KclExecResource) (ctx : context.Context) (req : CreateRequest)
    (cmd : exec.Cmd) (c : context.Context) (out : string) (err : option exec.Error) :
  In (CallRun cmd c out err) (snd (Create w r ctx req new_Response)) ->
  exec.lookpath_err (spawn w cmd) = None ->
  exec.start_err (spawn w cmd) = None ->
  context.Done c = false ->
  context.before c (exec.exit_time (spawn w cmd)) = true ->
  exec.exit_status (spawn w cmd) <> 0 ->
  err = Some (exec.ErrExit (exec.exit_status (spawn w cmd)))
  /\ out = exec.written (exec.writes (spawn w cmd))
  /\ State (fst (Create w r ctx req new_Response)) = None
  /\ exists d, In d (Diags (fst (Create w r ctx req new_Response)))
               /\ kind_of d = Some ExecutionFailedError
               /\ Detail d
                  = "Command: " +:+ exec.Name cmd +:+ " " +:+ Join (exec.Args cmd) " "
                    +:+ nl +:+ "Error: exit status "
                    +:+ pretty (exec.exit_status (spawn w cmd))
                    +:+ nl +:+ "Output: " +:+ exec.written (exec.writes (spawn w cmd)).
Proof.
  intros Hin Hlook Hstart Hdone Hbefore Hstatus.
  destruct (Create_run_inv w r ctx req cmd c out err Hin) as (_ & _ & Hrun & Hres).
  unfold exec.CombinedOutput in Hrun.
  rewrite Hlook, Hdone, Hstart, Hbefore in Hrun.
  destruct (exec.exit_status (spawn w cmd) =? 0) eqn:Hz;
    [apply Z.eqb_eq in Hz; contradiction|].
  injection Hrun as <- <-.
  destruct Hres as (Hst & ds & _ & Hds).
  repeat split; try assumption.
  destruct (AddError_In ds "KCL Execution Failed"
              (execution_failed_detail (exec.Name cmd) (exec.Args cmd)
                 (exec.ErrExit (exec.exit_status (spawn w cmd)))
                 (exec.written (exec.writes (spawn w cmd)))))
    as (d & Hd & _ & Hsum & Hdet).
  exists d. rewrite Hds. split; [exact Hd|]. split.
  - unfold kind_of. rewrite Hsum. reflexivity.
  - rewrite Hdet. reflexivity.
Qed.

Lemma Create_exit_status_witness :
  let w := Sample.world ["A=1"] [] (Sample.hello 3) in
  let cmd := {| exec.Name := "kcl"; exec.Args := ["-o"; "out.json"];
                exec.Dir := "/work/kcl"; exec.Env := ["A=1"] |} in
  let res := Create w Sample.unconfigured context.Background
               (Sample.request
                  (Sample.model "kcl" (Known [Known "-o"; Known "out.json"]) Null Null))
               new_Response in
  Some (exec.ErrExit 3) = Some (exec.ErrExit (exec.exit_status (spawn w cmd)))
  /\ "hello" +:+ nl +:+ "world" +:+ nl = exec.written (exec.writes (spawn w cmd))
  /\ State (fst res) = None
  /\ exists d, In d (Diags (fst res))
               /\ kind_of d = Some ExecutionFailedError
               /\ Detail d
                  = "Command: " +:+ exec.Name cmd +:+ " " +:+ Join (exec.Args cmd) " "
                    +:+ nl +:+ "Error: exit status "
                    +:+ pretty (exec.exit_status (spawn w cmd))
                    +:+ nl +:+ "Output: " +:+ exec.written (exec.writes (spawn w cmd)).
Proof.
  apply (Create_exit_status (Sample.world ["A=1"] [] (Sample.hello 3))
           Sample.unconfigured context.Background
           (Sample.request
              (Sample.model "kcl" (Known [Known "-o"; Known "out.json"]) Null Null))
           {| exec.Name := "kcl"; exec.Args := ["-o"; "out.json"];
              exec.Dir := "/work/kcl"; exec.Env := ["A=1"] |}
           (context.WithTimeout context.Background 300000000000)
           ("hello" +:+ nl +:+ "world" +:+ nl) (Some (exec.ErrExit 3)));
    try reflexivity.
  - vm_compute. do 3 right. left. reflexivity.
  - vm_compute. discriminate.
Defined.

Example Create_exit_status_detail :
  map Detail
    (Diags (fst (Create (Sample.world ["A=1"] [] (Sample.hello 3)) Sample.unconfigured
                   context.Background
                   (Sample.request
                      (Sample.model "kcl" (Known [Known "-o"; Known "out.json"])
                         Null Null))
                   new_Response)))
  = ["Command: kcl -o out.json" +:+ nl +:+ "Error: exit status 3" +:+ nl
     +:+ "Output: hello" +:+ nl +:+ "world" +:+ nl].
Proof. vm_compute. reflexivity. Qed.

(** X11. When the executable is not found, or the process cannot be
    started, nothing is captured: Create fails with "KCL Execution Failed",
    the error of the launch in its detail and an empty output, and leaves no
    state. *)
Theorem Create_launch_failure
    (w : World) (r : KclExecResource) (ctx : context.Context) (req : CreateRequest)
    (cmd : exec.Cmd) (c : context.Context) (out : string) (err : option exec.Error)
    (msg : string) :
  In (CallRun cmd c out err) (snd (Create w r ctx req new_Response)) ->
  exec.lookpath_err (spawn w cmd) = Some msg
  \/ (exec.lookpath_err (spawn w cmd) = None /\ context.Done c = false
      /\ exec.start_err (spawn w cmd) = Some msg) ->
  out = ""
  /\ State (fst (Create w r ctx req new_Response)) = None
  /\ exists d, In d (Diags (fst (Create w r ctx req new_Response)))
               /\ kind_of d = Some ExecutionFailedError
               /\ Detail d
                  = "Command: " +:+ exec.Name cmd +:+ " " +:+ Join (exec.Args cmd) " "
                    +:+ nl +:+ "Error: " +:+ msg +:+ nl +:+ "Output: ".
Proof.
  intros Hin Hfail.
  destruct (Create_run_inv w r ctx req cmd c out err Hin) as (_ & _ & Hrun & Hres).
  assert (Herr : out = ""
                 /\ exists e, err = Some e /\ exec.Error_string e = msg).
  { unfold exec.CombinedOutput in Hrun.
    destruct Hfail as [Hlook|(Hlook & Hdone & Hstart)].
    - rewrite Hlook in Hrun. injection Hrun as <- <-. eauto.
    - rewrite Hlook, Hdone, Hstart in Hrun. injection Hrun as <- <-. eauto. }
  destruct Herr as (-> & e & -> & Hmsg).
  destruct Hres as (Hst & ds & _ & Hds).
  split; [reflexivity|]. split; [exact Hst|].
  destruct (AddError_In ds "KCL Execution Failed"
              (execution_failed_detail (exec.Name cmd) (exec.Args cmd) e ""))
    as (d & Hd & _ & Hsum & Hdet).
  exists d. rewrite Hds. split; [exact Hd|]. split.
  - unfold kind_of. rewrite Hsum. reflexivity.
  - rewrite Hdet. unfold execution_failed_detail. rewrite Hmsg. reflexivity.
Qed.

Lemma Create_launch_failure_witness :
  let w := Sample.world ["A=1"] [] Tools.missing in
  let cmd := {| exec.Name := "kcl"; exec.Args := []; exec.Dir := "/work/kcl";
                exec.Env := ["A=1"] |} in
  let msg := "exec: " +:+ String "034" "kcl" +:+ String "034"
               ": executable file not found in $PATH" in
  let res := Create w Sample.unconfigured context.Background
               (Sample.request (Sample.model "kcl" Null Null Null)) new_Response in
  exec.lookpath_err (spawn w cmd) = Some msg
  /\ "" = ""
  /\ State (fst res) = None
  /\ exists d, In d (Diags (fst res))
               /\ kind_of d = Some ExecutionFailedError
               /\ Detail d
                  = "Command: " +:+ exec.Name cmd +:+ " " +:+ Join (exec.Args cmd) " "
                    +:+ nl +:+ "Error: " +:+ msg +:+ nl +:+ "Output: ".
Proof.
  cbv zeta. split; [reflexivity|].
  apply (Create_launch_failure (Sample.world ["A=1"] [] Tools.missing)
           Sample.unconfigured context.Background
           (Sample.request (Sample.model "kcl" Null Null Null))
           {| exec.Name := "kcl"; exec.Args := []; exec.Dir := "/work/kcl";
              exec.Env := ["A=1"] |}
           (context.WithTimeout context.Background 300000000000) ""
           (Some (exec.ErrLookPath
                    ("exec: " +:+ String "034" "kcl" +:+ String "034"
                       ": executable file not found in $PATH")))).
  - vm_compute. do 3 right. left. reflexivity.
  - left. reflexivity.
Defined.

(** ** What the state holds, and what Create does not read *)

(** X12. The triggers, and whatever the plan holds for the computed [id]
    and [output], are never read: with other values for them Create makes
    the same calls and raises the same diagnostics, and the state it leaves
    differs in the triggers only, which are copied. *)
Theorem Create_ignores_triggers
    (w : World) (r : KclExecResource) (ctx : context.Context) (req : CreateRequest)
    (id output : value string) (triggers : value (gmap string (value string))) :
  let req' := {| Plan := with_inert (Plan req) id output triggers;
                 Plan_Get_diags := Plan_Get_diags req |} in
  snd (Create w r ctx req' new_Response) = snd (Create w r ctx req new_Response)
  /\ Diags (fst (Create w r ctx req' new_Response))
     = Diags (fst (Create w r ctx req new_Response))
  /\ State (fst (Create w r ctx req' new_Response))
     = option_map (fun m => with_inert m (ID m) (Output m) triggers)
         (State (fst (Create w r ctx req new_Response))).
Proof.
  cbv zeta. unfold Create, decode_args, decode_env, timeout_of.
  cbn [Plan Plan_Get_diags with_inert SourceDir Args Environment Timeout Triggers].
  repeat match goal with
         | |- context [match filepath_Abs ?w ?p with _ => _ end] =>
             destruct (filepath_Abs w p) eqn:?
         | |- context [if IsNotExist ?s then _ else _] =>
             destruct (IsNotExist s) eqn:?
         | |- context [if HasError ?d then _ else _] =>
             destruct (HasError d) eqn:?
         | |- context [let '(_, _) := ?x in _] =>
             destruct x eqn:?
         | |- context [match ?e with Some _ => _ | None => _ end] =>
             destruct e eqn:?
         end;
    repeat split; reflexivity.
Qed.

(** X13. The state of a successful create is the plan with [id] and
    [output] filled in: the source directory stays as declared (not the
    absolute path), and arguments, triggers, timeout and environment are
    those of the plan. *)
Theorem Create_state_keeps_plan
    (w : World) (r : KclExecResource) (ctx : context.Context) (req : CreateRequest)
    (m : KclExecResourceModel) :
  State (fst (Create w r ctx req new_Response)) = Some m ->
  m = with_inert (Plan req) (ID m) (Output m) (Triggers (Plan req))
  /\ (exists id, ID m = Known id) /\ (exists output, Output m = Known output).
Proof.
  intros Hst.
  destruct (Create_success_inv w r ctx req m Hst)
    as (absPath & dargs & args & denv & envMap & output & H); cbv zeta in H.
  destruct H as (_ & _ & _ & _ & _ & _ & _ & _ & -> & _).
  split; [reflexivity|]. split; eexists; reflexivity.
Qed.

Lemma Create_state_keeps_plan_witness :
  let plan := Sample.model "kcl" (Known [Known "-d"]) (Known 600) Null in
  let m := with_inert plan (Known "66fad454f0e83515d92d93196209c53e") (Known "ok") Null in
  State (fst (Create (Sample.world ["A=1"] [] Sample.ok) Sample.unconfigured
                context.Background (Sample.request plan) new_Response)) = Some m
  /\ m = with_inert plan (ID m) (Output m) (Triggers plan)
  /\ (exists id, ID m = Known id) /\ (exists output, Output m = Known output).
Proof.
  cbv zeta.
  assert (H : State (fst (Create (Sample.world ["A=1"] [] Sample.ok) Sample.unconfigured
                            context.Background
                            (Sample.request
                               (Sample.model "kcl" (Known [Known "-d"]) (Known 600) Null))
                            new_Response))
              = Some (with_inert
                        (Sample.model "kcl" (Known [Known "-d"]) (Known 600) Null)
                        (Known "66fad454f0e83515d92d93196209c53e") (Known "ok") Null)).
  { vm_compute. reflexivity. }
  split; [exact H|].
  exact (Create_state_keeps_plan _ _ _ _ _ H).
Defined.

(** X14. The id does not depend on how the tool behaves, on the timeout,
    on the triggers or on the caller's context: two successful creates with
    the same provider, the same source directory, arguments and environment,
    in worlds that differ in the behaviour of the commands only, get the
    same id. *)
Theorem Create_id_independent_of_run
    (w : World) (sp : exec.Cmd -> exec.Process) (r : KclExecResource)
    (ctx ctx' : context.Context) (req req' : CreateRequest)
    (m m' : KclExecResourceModel) :
  SourceDir (Plan req) = SourceDir (Plan req') ->
  Args (Plan req) = Args (Plan req') ->
  Environment (Plan req) = Environment (Plan req') ->
  State (fst (Create w r ctx req new_Response)) = Some m ->
  State (fst (Create (with_spawn w sp) r ctx' req' new_Response)) = Some m' ->
  ID m = ID m'.
Proof.
  intros Hsrc Hargs Henv Hm Hm'.
  destruct (Create_success_inv w r ctx req m Hm)
    as (absPath & dargs & args & denv & envMap & output & H); cbv zeta in H.
  destruct H as (_ & Habs & _ & Ha & _ & He & _ & _ & -> & _).
  destruct (Create_success_inv (with_spawn w sp) r ctx' req' m' Hm')
    as (absPath' & dargs' & args' & denv' & envMap' & output' & H); cbv zeta in H.
  destruct H as (_ & Habs' & _ & Ha' & _ & He' & _ & _ & -> & _).
  cbn [filepath_Abs with_spawn] in Habs'. rewrite <- Hsrc, Habs in Habs'.
  injection Habs' as <-.
  unfold decode_args in Ha, Ha'. rewrite <- Hargs, Ha in Ha'. injection Ha' as _ <-.
  unfold decode_env in He, He'. rewrite <- Henv, He in He'. injection He' as _ <-.
  reflexivity.
Qed.

Lemma Create_id_independent_of_run_witness :
  let w := Sample.world ["A=1"] [] Sample.ok in
  let req := Sample.request (Sample.model "kcl" (Known [Known "-d"]) (Known 600) Null) in
  let req' := Sample.request (Sample.model "kcl" (Known [Known "-d"]) Null Null) in
  exists m m',
    State (fst (Create w Sample.unconfigured context.Background req new_Response))
    = Some m
    /\ State (fst (Create (with_spawn w (fun _ => Sample.hello 0)) Sample.unconfigured
                     (context.WithTimeout context.Background time.Second) req'
                     new_Response))
       = Some m'
    /\ Output m <> Output m'
    /\ ID m = ID m'.
Proof.
  cbv zeta. eexists. eexists.
  assert (H1 : State (fst (Create (Sample.world ["A=1"] [] Sample.ok) Sample.unconfigured
                             context.Background
                             (Sample.request
                                (Sample.model "kcl" (Known [Known "-d"]) (Known 600) Null))
                             new_Response))
               = Some (with_inert
                         (Sample.model "kcl" (Known [Known "-d"]) (Known 600) Null)
                         (Known "66fad454f0e83515d92d93196209c53e") (Known "ok") Null))
    by (vm_compute; reflexivity).
  assert (H2 : State (fst (Create (with_spawn (Sample.world ["A=1"] [] Sample.ok)
                                     (fun _ => Sample.hello 0))
                             Sample.unconfigured
                             (context.WithTimeout context.Background time.Second)
                             (Sample.request
                                (Sample.model "kcl" (Known [Known "-d"]) Null Null))
                             new_Response))
               = Some (with_inert
                         (Sample.model "kcl" (Known [Known "-d"]) Null Null)
                         (Known "66fad454f0e83515d92d93196209c53e")
                         (Known ("hello" +:+ nl +:+ "world")) Null))
    by (vm_compute; reflexivity).
  split; [exact H1|]. split; [exact H2|]. split; [discriminate|].
  exact (Create_id_independent_of_run
           (Sample.world ["A=1"] [] Sample.ok) (fun _ => Sample.hello 0)
           Sample.unconfigured context.Background
           (context.WithTimeout context.Background time.Second)
           (Sample.request (Sample.model "kcl" (Known [Known "-d"]) (Known 600) Null))
           (Sample.request (Sample.model "kcl" (Known [Known "-d"]) Null Null))
           _ _ eq_refl eq_refl eq_refl H1 H2).
Defined.

(** ** The order of the environment entries *)

Lemma range_order_nil {A} (l : list A) : range_order [] l = l.
Proof.
  induction l as [|x l IH]; [reflexivity|].
  change (range_order [] (x :: l))
    with (let t := range_order [] l in
          take (Nat.modulo 0 (S (length t))) t ++ x :: drop (Nat.modulo 0 (S (length t))) t).
  rewrite IH. cbv zeta. rewrite Nat.Div0.mod_0_l. reflexivity.
Qed.

Lemma range_order_swap {A} (x y : A) (l : list A) :
  range_order [1%nat] (x :: y :: l) = y :: x :: l.
Proof.
  change (range_order [1%nat] (x :: y :: l))
    with (let t := range_order [] (y :: l) in
          take (Nat.modulo 1 (S (length t))) t ++ x :: drop (Nat.modulo 1 (S (length t))) t).
  rewrite range_order_nil. cbv zeta.
  rewrite Nat.mod_small by (simpl; lia). reflexivity.
Qed.

Lemma env_entry_inj (kv kv' : string * string) :
  contains_byte "=" (fst kv) = false -> contains_byte "=" (fst kv') = false ->
  env_entry kv = env_entry kv' -> kv = kv'.
Proof.
  destruct kv as [k v], kv' as [k' v']. simpl. intros Hk Hk' Heq.
  apply (f_equal split_entry) in Heq.
  rewrite !split_entry_env_entry in Heq by assumption. congruence.
Qed.

(** X15. With two or more environment entries the vector handed to the
    tool, which is also hashed into the id, is not determined by the plan:
    it follows the order in which the map is ranged over. Under two such
    orders the same plan in the same world gives two different vectors with
    the same entries. *)
Theorem Create_environment_order
    (w : World) (r : KclExecResource) (ctx : context.Context) (req : CreateRequest)
    (m : gmap string (value string)) (k1 k2 v1 v2 : string)
    (cmd cmd' : exec.Cmd) (c c' : context.Context) (out out' : string)
    (err err' : option exec.Error) :
  Environment (Plan req) = Known m ->
  m !! k1 = Some (Known v1) -> m !! k2 = Some (Known v2) -> k1 <> k2 ->
  map_Forall (fun k _ => contains_byte "=" k = false) m ->
  In (CallRun cmd c out err)
     (snd (Create (with_seed w []) r ctx req new_Response)) ->
  In (CallRun cmd' c' out' err')
     (snd (Create (with_seed w [1%nat]) r ctx req new_Response)) ->
  exec.Env cmd <> exec.Env cmd'
  /\ Permutation (exec.Env cmd) (exec.Env cmd').
Proof.
  intros Hm H1 H2 Hne Hkeys Hin Hin'.
  destruct (Create_run_cmd _ r ctx req cmd c out err Hin)
    as (absPath & dargs & args & denv & envMap & _ & _ & _ & Henv & Hdenv & ->).
  destruct (Create_run_cmd _ r ctx req cmd' c' out' err' Hin')
    as (absPath' & dargs' & args' & denv' & envMap' & _ & _ & _ & Henv' & _ & ->).
  rewrite Henv in Henv'. injection Henv' as _ <-.
  assert (Hok := decode_env_ok _ _ _ Henv Hdenv). rewrite Hm in Hok.
  assert (Hlook : forall k v, m !! k = Some (Known v) -> envMap !! k = Some v).
  { intros k v Hk. rewrite Hok in Hk. destruct (envMap !! k); simpl in Hk; congruence. }
  assert (Hfree : forall kv, kv ∈ map_to_list envMap ->
                             contains_byte "=" (fst kv) = false).
  { intros [k v] Hkv. apply elem_of_map_to_list in Hkv. simpl.
    apply (Hkeys k (Known v)). rewrite Hok, Hkv. reflexivity. }
  assert (He1 : (k1, v1) ∈ map_to_list envMap) by (apply elem_of_map_to_list; auto).
  assert (He2 : (k2, v2) ∈ map_to_list envMap) by (apply elem_of_map_to_list; auto).
  assert (Hnd := NoDup_fst_map_to_list envMap).
  cbn [exec.Env]. unfold append_env. cbn [range_seed with_seed os_Environ].
  destruct (map_to_list envMap) as [|e1 [|e2 rest]].
  - inversion He1.
  - apply list_elem_of_singleton in He1, He2. congruence.
  - rewrite range_order_nil, range_order_swap. split.
    + intros Heq. apply app_inv_head in Heq. simpl in Heq. injection Heq as Heq _.
      apply env_entry_inj in Heq;
        [|apply Hfree; constructor|apply Hfree; do 2 constructor].
      subst e2. simpl in Hnd. apply NoDup_cons in Hnd as [Hnot _].
      apply Hnot. left.
    + apply Permutation_app_head. simpl. apply perm_swap.
Qed.

Lemma Create_environment_order_witness :
  let w := Sample.world ["A=1"] [] Sample.ok in
  let m : gmap string (value string) := {[ "A" := Known "2"; "B" := Known "3" ]} in
  let req := Sample.request (Sample.model "kcl" Null Null (Known m)) in
  let cmd := {| exec.Name := "kcl"; exec.Args := []; exec.Dir := "/work/kcl";
                exec.Env := ["A=1"; "A=2"; "B=3"] |} in
  let cmd' := {| exec.Name := "kcl"; exec.Args := []; exec.Dir := "/work/kcl";
                 exec.Env := ["A=1"; "B=3"; "A=2"] |} in
  let c := context.WithTimeout context.Background 300000000000 in
  In (CallRun cmd c ("ok" +:+ nl) None)
     (snd (Create (with_seed w []) Sample.unconfigured context.Background req
             new_Response))
  /\ In (CallRun cmd' c ("ok" +:+ nl) None)
        (snd (Create (with_seed w [1%nat]) Sample.unconfigured context.Background req
                new_Response))
  /\ exec.Env cmd <> exec.Env cmd'
  /\ Permutation (exec.Env cmd) (exec.Env cmd').
Proof.
  cbv zeta.
  assert (H1 : In (CallRun {| exec.Name := "kcl"; exec.Args := [];
                              exec.Dir := "/work/kcl";
                              exec.Env := ["A=1"; "A=2"; "B=3"] |}
                     (context.WithTimeout context.Background 300000000000)
                     ("ok" +:+ nl) None)
                 (snd (Create (with_seed (Sample.world ["A=1"] [] Sample.ok) [])
                         Sample.unconfigured context.Background
                         (Sample.request
                            (Sample.model "kcl" Null Null
                               (Known {[ "A" := Known "2"; "B" := Known "3" ]})))
                         new_Response)))
    by (vm_compute; do 3 right; left; reflexivity).
  assert (H2 : In (CallRun {| exec.Name := "kcl"; exec.Args := [];
                              exec.Dir := "/work/kcl";
                              exec.Env := ["A=1"; "B=3"; "A=2"] |}
                     (context.WithTimeout context.Background 300000000000)
                     ("ok" +:+ nl) None)
                 (snd (Create (with_seed (Sample.world ["A=1"] [] Sample.ok) [1%nat])
                         Sample.unconfigured context.Background
                         (Sample.request
                            (Sample.model "kcl" Null Null
                               (Known {[ "A" := Known "2"; "B" := Known "3" ]})))
                         new_Response)))
    by (vm_compute; do 3 right; left; reflexivity).
  split; [exact H1|]. split; [exact H2|].
  apply (Create_environment_order (Sample.world ["A=1"] [] Sample.ok)
           Sample.unconfigured context.Background
           (Sample.request
              (Sample.model "kcl" Null Null
                 (Known {[ "A" := Known "2"; "B" := Known "3" ]})))
           {[ "A" := Known "2"; "B" := Known "3" ]} "A" "B" "2" "3"
           {| exec.Name := "kcl"; exec.Args := []; exec.Dir := "/work/kcl";
              exec.Env := ["A=1"; "A=2"; "B=3"] |}
           {| exec.Name := "kcl"; exec.Args := []; exec.Dir := "/work/kcl";
              exec.Env := ["A=1"; "B=3"; "A=2"] |}
           (context.WithTimeout context.Background 300000000000)
           (context.WithTimeout context.Background 300000000000)
           ("ok" +:+ nl) ("ok" +:+ nl) None None eq_refl);
    [reflexivity|reflexivity|discriminate| |exact H1|exact H2].
  intros k v Hk.
  destruct (decide (k = "A")) as [->|Ha]; [reflexivity|].
  destruct (decide (k = "B")) as [->|Hb]; [reflexivity|].
  rewrite lookup_insert_ne, lookup_singleton_ne in Hk by congruence. discriminate.
Defined.

(** The two orders give the same plan two ids. *)
Example Create_environment_order_ids :
  let req := Sample.request
               (Sample.model "kcl" Null Null
                  (Known {[ "A" := Known "2"; "B" := Known "3" ]})) in
  exists m m',
    State (fst (Create (Sample.world ["A=1"] [] Sample.ok) Sample.unconfigured
                  context.Background req new_Response)) = Some m
    /\ State (fst (Create (Sample.world ["A=1"] [1%nat] Sample.ok) Sample.unconfigured
                     context.Background req new_Response)) = Some m'
    /\ ID m = Known "0890ed9fdb7a1eb6351417727fdce2ad"
    /\ ID m' = Known "de0a8cf56da8ae76d7b5922b463e2360".
Proof.
  cbv zeta. do 2 eexists.
  split; [vm_compute; reflexivity|]. split; [vm_compute; reflexivity|].
  split; reflexivity.
Qed.

(** ** The deadline of the run *)

(** X16. A declared timeout of [v] seconds, with [v] between -9223372036
    and 9223372036, bounds the run by [v] seconds from the start of Create,
    or by the deadline of the caller when that comes first. *)
Theorem Create_deadline
    (w : World) (r : KclExecResource) (ctx : context.Context) (req : CreateRequest)
    (v : Z) (cmd : exec.Cmd) (c : context.Context) (out : string)
    (err : option exec.Error) :
  In (CallRun cmd c out err) (snd (Create w r ctx req new_Response)) ->
  Timeout (Plan req) = Known v ->
  -9223372036 <= v <= 9223372036 ->
  context.remaining c
  = Some (match context.remaining ctx with
          | Some caller => Z.min caller (v * 1000000000)
          | None => v * 1000000000
          end).
Proof.
  intros Hin Hv Hrange.
  destruct (Create_run_inv w r ctx req cmd c out err Hin) as (-> & _).
  rewrite (timeout_of_declared (Plan req) v Hv Hrange). reflexivity.
Qed.

Lemma Create_deadline_witness :
  let ctx := context.WithTimeout context.Background (30 * time.Second) in
  let cmd := {| exec.Name := "kcl"; exec.Args := []; exec.Dir := "/work/kcl";
                exec.Env := [] |} in
  let c := {| context.remaining := Some 30000000000 |} in
  In (CallRun cmd c ("ok" +:+ nl) None)
     (snd (Create (Sample.world [] [] Sample.ok) Sample.unconfigured ctx
             (Sample.request (Sample.model "kcl" Null (Known 600) Null)) new_Response))
  /\ context.remaining c = Some (Z.min 30000000000 (600 * 1000000000)).
Proof.
  cbv zeta.
  assert (Hin : In (CallRun {| exec.Name := "kcl"; exec.Args := [];
                               exec.Dir := "/work/kcl"; exec.Env := [] |}
                      {| context.remaining := Some 30000000000 |} ("ok" +:+ nl) None)
                  (snd (Create (Sample.world [] [] Sample.ok) Sample.unconfigured
                          (context.WithTimeout context.Background (30 * time.Second))
                          (Sample.request (Sample.model "kcl" Null (Known 600) Null))
                          new_Response)))
    by (vm_compute; do 3 right; left; reflexivity).
  split; [exact Hin|].
  apply (Create_deadline _ _ _ _ 600 _ _ _ _ Hin); [reflexivity|lia].
Defined.

Lemma Create_nonpositive_timeout_witness :
  let res := Create (Sample.world ["A=1"] [] Sample.ok) Sample.unconfigured
               context.Background
               (Sample.request (Sample.model "kcl" Null (Known 0) Null)) new_Response in
  State (fst res) = None
  /\ forall cmd c out err,
       In (CallRun cmd c out err) (snd res) ->
       context.Done c = true /\ out = "" /\ exists e, err = Some e.
Proof.
  apply (Create_nonpositive_timeout (Sample.world ["A=1"] [] Sample.ok)
           Sample.unconfigured context.Background
           (Sample.request (Sample.model "kcl" Null (Known 0) Null)) 0);
    [reflexivity|lia].
Defined.

(** ** Update, again *)

Lemma Diagnostic_eqb_refl (d : Diagnostic) : Diagnostic_eqb d d = true.
Proof.
  unfold Diagnostic_eqb. destruct (severity d); rewrite !String.eqb_refl; reflexivity.
Qed.

(** X18. Update keeps every diagnostic the response held, and a second
    Update adds nothing to the first: the error is there once. *)
Theorem Update_idempotent (resp : Response) :
  Update (Update resp) = Update resp
  /\ (forall d, In d (Diags resp) -> In d (Diags (Update resp)))
  /\ State (Update (Update resp)) = State resp.
Proof.
  unfold Update, resp_AddError, AddError. cbn [State Diags].
  set (e := NewErrorDiagnostic "Update Not Supported"
              "KCL execution resource does not support updates - changes require replacement").
  assert (Hc : Contains (Append (Diags resp) [e]) e = true).
  { unfold Contains. apply existsb_exists. exists e.
    split; [|apply Diagnostic_eqb_refl].
    unfold Append. simpl. destruct (Contains (Diags resp) e) eqn:Hc.
    - unfold Contains in Hc. apply existsb_exists in Hc as (e' & Hin & Heq).
      apply Diagnostic_eqb_eq in Heq as <-. exact Hin.
    - apply in_or_app. right. left. reflexivity. }
  split; [|split; [|reflexivity]].
  - f_equal.
    change (Append (Append (Diags resp) [e]) [e])
      with (if Contains (Append (Diags resp) [e]) e
            then Append (Diags resp) [e]
            else Append (Diags resp) [e] ++ [e]).
    rewrite Hc. reflexivity.
  - intros d Hd. apply In_Append. left. exact Hd.
Qed.

(** ** What TrimSpace removes *)

Section Trim.

Local Arguments strings_.asciiSpace : simpl never.
Local Arguments strings_.space2 : simpl never.
Local Arguments strings_.space3 : simpl never.

Lemma append_cons (c : ascii) (a b : string) : String c a +:+ b = String c (a +:+ b).
Proof. reflexivity. Qed.

Lemma append_assoc (a b c : string) : (a +:+ b) +:+ c = a +:+ (b +:+ c).
Proof.
  induction a as [|x a IH]; [reflexivity|]. rewrite !append_cons, IH. reflexivity.
Qed.

Lemma append_nil_r (a : string) : a +:+ "" = a.
Proof.
  induction a as [|x a IH]; [reflexivity|]. rewrite append_cons, IH. reflexivity.
Qed.

Lemma length_append (a b : string) :
  String.length (a +:+ b) = (String.length a + String.length b)%nat.
Proof.
  induction a as [|x a IH]; [reflexivity|]. rewrite append_cons. simpl.
  rewrite IH. reflexivity.
Qed.

(** [trim] cuts a sequence of white space runes off the front and stops at
    a string that it leaves alone. *)
Lemma trim_spec (fwd : bool) (s : string) :
  exists p, s = p +:+ strings_.trim fwd s /\ spaces fwd p
            /\ strings_.trim fwd (strings_.trim fwd s) = strings_.trim fwd s.
Proof.
  assert (H : forall n s, (String.length s <= n)%nat ->
              exists p, s = p +:+ strings_.trim fwd s /\ spaces fwd p
                        /\ strings_.trim fwd (strings_.trim fwd s)
                           = strings_.trim fwd s).
  { clear s. induction n as [|n IH]; intros s Hlen.
    - destruct s; [|simpl in Hlen; lia]. exists "". repeat split. constructor.
    - destruct s as [|c1 r1]; [exists ""; repeat split; constructor|].
      simpl in Hlen. cbn [strings_.trim].
      destruct (strings_.asciiSpace c1) eqn:H1.
      { destruct (IH r1 ltac:(lia)) as (p & Hp & Hs & Hfix).
        exists (String c1 p). rewrite append_cons, <- Hp.
        repeat split; [constructor; assumption|exact Hfix]. }
      destruct r1 as [|c2 r2].
      { exists "". repeat split; [constructor|]. cbn [strings_.trim]. rewrite H1.
        reflexivity. }
      simpl in Hlen.
      destruct (if fwd then strings_.space2 c1 c2 else strings_.space2 c2 c1) eqn:H2.
      { destruct (IH r2 ltac:(lia)) as (p & Hp & Hs & Hfix).
        exists (String c1 (String c2 p)). rewrite !append_cons, <- Hp.
        repeat split; [apply spaces_two; assumption|exact Hfix]. }
      destruct r2 as [|c3 r3].
      { exists "". repeat split; [constructor|]. cbn [strings_.trim]. rewrite H1, H2.
        reflexivity. }
      simpl in Hlen.
      destruct (if fwd then strings_.space3 c1 c2 c3 else strings_.space3 c3 c2 c1)
        eqn:H3.
      { destruct (IH r3 ltac:(lia)) as (p & Hp & Hs & Hfix).
        exists (String c1 (String c2 (String c3 p))). rewrite !append_cons, <- Hp.
        repeat split; [apply spaces_three; assumption|exact Hfix]. }
      exists "". repeat split; [constructor|]. cbn [strings_.trim].
      rewrite H1, H2, H3. reflexivity. }
  exact (H (String.length s) s (le_n _)).
Qed.

Lemma trim_length (fwd : bool) (s : string) :
  (String.length (strings_.trim fwd s) <= String.length s)%nat.
Proof.
  destruct (trim_spec fwd s) as (p & Hp & _). rewrite Hp at 2.
  rewrite length_append. lia.
Qed.

(** A string that [trim] leaves alone does not begin with an ASCII white
    space, and neither does any of its prefixes. *)
Lemma trim_fixed_prefix (fwd : bool) (u q : string) :
  strings_.trim fwd (u +:+ q) = u +:+ q -> strings_.trim fwd u = u.
Proof.
  intros Hfix.
  assert (Hshort : forall r, (String.length r < String.length (u +:+ q))%nat ->
                             strings_.trim fwd r <> u +:+ q).
  { intros r Hr Heq. pose proof (trim_length fwd r) as Hl. rewrite Heq in Hl. lia. }
  destruct u as [|c1 u]; [reflexivity|].
  rewrite append_cons in Hfix. cbn [strings_.trim] in Hfix. cbn [strings_.trim].
  destruct (strings_.asciiSpace c1).
  { exfalso. apply (Hshort (u +:+ q)); [rewrite ?append_cons; simpl; lia|exact Hfix]. }
  destruct u as [|c2 u]; [reflexivity|].
  rewrite append_cons in Hfix.
  destruct (if fwd then strings_.space2 c1 c2 else strings_.space2 c2 c1).
  { exfalso. apply (Hshort (u +:+ q)); [rewrite ?append_cons; simpl; lia|exact Hfix]. }
  destruct u as [|c3 u]; [reflexivity|].
  rewrite append_cons in Hfix.
  destruct (if fwd then strings_.space3 c1 c2 c3 else strings_.space3 c3 c2 c1).
  { exfalso. apply (Hshort (u +:+ q)); [rewrite ?append_cons; simpl; lia|exact Hfix]. }
  reflexivity.
Qed.

Lemma trim_fixed_head (fwd : bool) (c : ascii) (r : string) :
  strings_.trim fwd (String c r) = String c r -> strings_.asciiSpace c = false.
Proof.
  intros Hfix. cbn [strings_.trim] in Hfix.
  destruct (strings_.asciiSpace c); [|reflexivity].
  exfalso. pose proof (trim_length fwd r) as Hl. rewrite Hfix in Hl. simpl in Hl. lia.
Qed.

End Trim.

Section TrimSpace.

Lemma rev_app_spec (s1 s2 : string) : String.rev_app s1 s2 = String.rev s1 +:+ s2.
Proof.
  revert s2. induction s1 as [|a s1 IH]; intros s2; [reflexivity|].
  unfold String.rev. cbn [String.rev_app].
  rewrite (IH (String a s2)), (IH (String a "")), append_assoc. reflexivity.
Qed.

Lemma rev_cons (a : ascii) (s : string) :
  String.rev (String a s) = String.rev s +:+ String a "".
Proof. unfold String.rev at 1. cbn [String.rev_app]. apply rev_app_spec. Qed.

Lemma rev_append (s1 s2 : string) :
  String.rev (s1 +:+ s2) = String.rev s2 +:+ String.rev s1.
Proof.
  induction s1 as [|a s1 IH].
  - change ("" +:+ s2) with s2. symmetry. apply append_nil_r.
  - rewrite append_cons, !rev_cons, IH, append_assoc. reflexivity.
Qed.

Lemma rev_involutive (s : string) : String.rev (String.rev s) = s.
Proof.
  induction s as [|a s IH]; [reflexivity|].
  rewrite rev_cons, rev_append, IH. reflexivity.
Qed.

Lemma spaces_append (fwd : bool) (a b : string) :
  spaces fwd a -> spaces fwd b -> spaces fwd (a +:+ b).
Proof.
  induction 1; intros Hb; rewrite ?append_cons.
  - exact Hb.
  - apply spaces_ascii; auto.
  - apply spaces_two; auto.
  - apply spaces_three; auto.
Qed.

(** White space read back to front is white space once turned round. *)
Lemma spaces_rev (p : string) : spaces false p -> spaces true (String.rev p).
Proof.
  induction 1 as [|c s Hc _ IH|c1 c2 s Hc _ IH|c1 c2 c3 s Hc _ IH].
  - constructor.
  - rewrite rev_cons. apply spaces_append; [exact IH|].
    apply spaces_ascii; [exact Hc|constructor].
  - rewrite !rev_cons, append_assoc. apply spaces_append; [exact IH|].
    apply spaces_two; [exact Hc|constructor].
  - rewrite !rev_cons, !append_assoc. apply spaces_append; [exact IH|].
    apply spaces_three; [exact Hc|constructor].
Qed.

(** [strings.TrimSpace] cuts white space runes off both ends, and nothing
    else; what is left has no white space at either end, so that trimming
    it again changes nothing. *)
Lemma TrimSpace_spec (s : string) :
  exists pre post,
    s = pre +:+ strings_.TrimSpace s +:+ post
    /\ spaces true pre /\ spaces true post
    /\ strings_.TrimLeft (strings_.TrimSpace s) = strings_.TrimSpace s
    /\ strings_.TrimRight (strings_.TrimSpace s) = strings_.TrimSpace s.
Proof.
  unfold strings_.TrimSpace, strings_.TrimRight, strings_.TrimLeft.
  destruct (trim_spec true s) as (pre & Hpre & Hspre & Hfix).
  set (t := strings_.trim true s) in *.
  destruct (trim_spec false (String.rev t)) as (p & Hp & Hsp & Hfix').
  set (x := strings_.trim false (String.rev t)) in *.
  assert (Ht : t = String.rev x +:+ String.rev p).
  { rewrite <- rev_append, <- Hp, rev_involutive. reflexivity. }
  exists pre, (String.rev p). repeat split.
  - rewrite <- Ht. exact Hpre.
  - exact Hspre.
  - apply spaces_rev. exact Hsp.
  - apply (trim_fixed_prefix true (String.rev x) (String.rev p)).
    rewrite <- Ht. exact Hfix.
  - rewrite rev_involutive, Hfix'. reflexivity.
Qed.

Lemma TrimSpace_ascii_edges (s : string) :
  (forall c r, strings_.TrimSpace s = String c r -> strings_.asciiSpace c = false)
  /\ (forall r c, strings_.TrimSpace s = r +:+ String c "" ->
      strings_.asciiSpace c = false).
Proof.
  destruct (TrimSpace_spec s) as (_ & _ & _ & _ & _ & Hl & Hr).
  split.
  - intros c r Heq. rewrite Heq in Hl. exact (trim_fixed_head true c r Hl).
  - intros r c Heq. rewrite Heq in Hr. unfold strings_.TrimRight in Hr.
    apply (f_equal String.rev) in Hr. rewrite rev_involutive in Hr.
    rewrite rev_append in Hr. change (String.rev (String c "")) with (String c "") in Hr.
    rewrite append_cons in Hr. change ("" +:+ String.rev r) with (String.rev r) in Hr.
    exact (trim_fixed_head false c (String.rev r) Hr).
Qed.

End TrimSpace.

(** X19. The output of the state is the captured output without the white
    space at its two ends and with nothing else removed: the captured
    output is a run of white space, the output, and a run of white space;
    the output neither begins nor ends with an ASCII white space, and
    trimming it again would not change it. *)
Theorem Create_output_edges
    (w : World) (r : KclExecResource) (ctx : context.Context) (req : CreateRequest)
    (m : KclExecResourceModel) :
  State (fst (Create w r ctx req new_Response)) = Some m ->
  exists cmd c out o pre post,
    In (CallRun cmd c out None) (snd (Create w r ctx req new_Response))
    /\ Output m = Known o
    /\ out = pre +:+ o +:+ post
    /\ spaces true pre /\ spaces true post
    /\ strings_.TrimSpace o = o
    /\ (forall a s, o = String a s -> strings_.asciiSpace a = false)
    /\ (forall s a, o = s +:+ String a "" -> strings_.asciiSpace a = false).
Proof.
  intros Hst.
  destruct (Create_success_inv w r ctx req m Hst)
    as (absPath & dargs & args & denv & envMap & output & H); cbv zeta in H.
  destruct H as (_ & _ & _ & _ & _ & _ & _ & _ & -> & Hcalls).
  destruct (TrimSpace_spec output) as (pre & post & Hout & Hpre & Hpost & Hl & Hr).
  destruct (TrimSpace_ascii_edges output) as (Hhead & Hlast).
  do 3 eexists. exists (strings_.TrimSpace output), pre, post.
  split; [rewrite Hcalls; do 3 right; left; reflexivity|].
  cbn [Output]. repeat split; try assumption.
  unfold strings_.TrimSpace at 1. rewrite Hl. exact Hr.
Qed.

Lemma Create_output_edges_witness :
  let res := Create (Sample.world [] [] Tools.padded) Sample.unconfigured
               context.Background
               (Sample.request (Sample.model "kcl" Null Null Null)) new_Response in
  exists m,
    State (fst res) = Some m
    /\ Output m = Known ("a: 1" +:+ nl +:+ "b: 2")
    /\ exists cmd c out o pre post,
         In (CallRun cmd c out None) (snd res)
         /\ Output m = Known o
         /\ out = pre +:+ o +:+ post
         /\ spaces true pre /\ spaces true post
         /\ strings_.TrimSpace o = o
         /\ (forall a s, o = String a s -> strings_.asciiSpace a = false)
         /\ (forall s a, o = s +:+ String a "" -> strings_.asciiSpace a = false).
Proof.
  cbv zeta. eexists.
  assert (H : State (fst (Create (Sample.world [] [] Tools.padded) Sample.unconfigured
                            context.Background
                            (Sample.request (Sample.model "kcl" Null Null Null))
                            new_Response))
              = Some (with_inert (Sample.model "kcl" Null Null Null)
                        (Known "88adc6644364efcba8d70d3e19093ce4")
                        (Known ("a: 1" +:+ nl +:+ "b: 2")) Null)).
  { vm_compute. reflexivity. }
  split; [exact H|]. split; [reflexivity|].
  exact (Create_output_edges _ _ _ _ _ H).
Defined.

(** A tool that prints white space only leaves an empty output. *)
Example Create_output_blank :
  exists m,
    State (fst (Create (Sample.world [] [] Tools.blank) Sample.unconfigured
                  context.Background
                  (Sample.request (Sample.model "kcl" Null Null Null)) new_Response))
    = Some m
    /\ Output m = Known "".
Proof. eexists. split; vm_compute; reflexivity. Qed.

(** ** One error at most *)

(** X20. With a plan that decoded without diagnostics, Create either
    succeeds, with a state and no diagnostic at all, or fails with exactly
    one error and no state; the error is one of "Path Resolution Error",
    "Directory Not Found", "Value Conversion Error" and
    "KCL Execution Failed". *)
Theorem Create_single_error
    (w : World) (r : KclExecResource) (ctx : context.Context) (req : CreateRequest) :
  Plan_Get_diags req = [] ->
  let resp := fst (Create w r ctx req new_Response) in
  (is_Some (State resp) /\ Diags resp = [])
  \/ (State resp = None
      /\ exists d, Diags resp = [d]
                   /\ severity d = SeverityError
                   /\ In (Summary d)
                        ["Path Resolution Error"; "Directory Not Found";
                         "Value Conversion Error"; "KCL Execution Failed"]).
Proof.
  intros Hplan. cbv zeta.
  unfold Create, decode_args, decode_env, List_ElementsAs, Map_ElementsAs.
  rewrite Hplan. cbn [resp_Append new_Response Diags State Append fold_left HasError existsb].
  destruct (filepath_Abs w (ValueString (SourceDir (Plan req)))) as [absPath|e].
  2:{ right. split; [reflexivity|]. eexists. split; [reflexivity|].
      split; [reflexivity|]. simpl. auto. }
  destruct (IsNotExist (os_Stat w absPath)).
  { right. split; [reflexivity|]. eexists. split; [reflexivity|].
    split; [reflexivity|]. simpl. auto. }
  assert (Hconv : forall calls : list Call,
             let res := ({| State := None; Diags := [conversion_error] |}, calls) in
             (is_Some (State (fst res)) /\ Diags (fst res) = [])
             \/ (State (fst res) = None
                 /\ exists d, Diags (fst res) = [d] /\ severity d = SeverityError
                              /\ In (Summary d)
                                   ["Path Resolution Error"; "Directory Not Found";
                                    "Value Conversion Error"; "KCL Execution Failed"])).
  { intros calls. right. split; [reflexivity|]. eexists. split; [reflexivity|].
    split; [reflexivity|]. simpl. auto. }
  destruct (Args (Plan req)) as [| |l]; cbn [IsNull];
    [|apply Hconv|destruct (known_strings l); [|apply Hconv]];
    cbn [resp_Append Diags State Append fold_left HasError existsb];
    (destruct (Environment (Plan req)) as [| |em]; cbn [IsNull];
     [|apply Hconv|destruct (decide _); [|apply Hconv]]);
    cbn [resp_Append Diags State Append fold_left HasError existsb];
    match goal with
    | |- context [exec.CombinedOutput ?c ?p] =>
        destruct (exec.CombinedOutput c p) as [output [e|]]
    end;
    first [ left; split; [eexists; reflexivity|reflexivity]
          | right; split; [reflexivity|]; eexists; split; [reflexivity|];
            split; [reflexivity|]; simpl; auto ].
Qed.

Lemma Create_single_error_witness :
  let resp := fst (Create (Sample.world [] [] (Sample.hello 3)) Sample.unconfigured
                     context.Background
                     (Sample.request (Sample.model "kcl" Null Null Null))
                     new_Response) in
  (is_Some (State resp) /\ Diags resp = [])
  \/ (State resp = None
      /\ exists d, Diags resp = [d]
                   /\ severity d = SeverityError
                   /\ In (Summary d)
                        ["Path Resolution Error"; "Directory Not Found";
                         "Value Conversion Error"; "KCL Execution Failed"]).
Proof.
  apply (Create_single_error (Sample.world [] [] (Sample.hello 3)) Sample.unconfigured
           context.Background (Sample.request (Sample.model "kcl" Null Null Null))).
  reflexivity.
Defined.

(** ** The output of a run that exits with status zero *)

(** C7. When Create has got as far as running the tool, and the tool
    starts, exits with status zero and does so before the deadline, the run
    is reported without error, the captured output is everything the tool
    wrote to its standard output and standard error, in the order of the
    writes and unmodified, and the state holds that output trimmed once:
    the captured output is a run of white space, the output of the state,
    and a run of white space; the output of the state neither begins nor
    ends with an ASCII white space, and trimming it again changes nothing. *)
Theorem Create_output
    (w : World) (r : KclExecResource) (ctx : context.Context) (req : CreateRequest)
    (cmd : exec.Cmd) (c : context.Context) (out : string) (err : option exec.Error) :
  In (CallRun cmd c out err) (snd (Create w r ctx req new_Response)) ->
  exec.lookpath_err (spawn w cmd) = None ->
  exec.start_err (spawn w cmd) = None ->
  context.Done c = false ->
  context.before c (exec.exit_time (spawn w cmd)) = true ->
  exec.exit_status (spawn w cmd) = 0 ->
  let captured := exec.written (exec.writes (spawn w cmd)) in
  err = None
  /\ out = captured
  /\ exists m o pre post,
       State (fst (Create w r ctx req new_Response)) = Some m
       /\ Output m = Known o
       /\ o = strings_.TrimSpace captured
       /\ captured = pre +:+ o +:+ post
       /\ spaces true pre /\ spaces true post
       /\ (forall a s, o = String a s -> strings_.asciiSpace a = false)
       /\ (forall s a, o = s +:+ String a "" -> strings_.asciiSpace a = false)
       /\ strings_.TrimSpace o = o.
Proof.
  intros Hin Hlook Hstart Hdone Hbefore Hstatus. cbv zeta.
  destruct (Create_run_inv w r ctx req cmd c out err Hin) as (_ & _ & Hrun & Hres).
  unfold exec.CombinedOutput in Hrun.
  rewrite Hlook, Hdone, Hstart, Hbefore, Hstatus in Hrun. cbn [Z.eqb] in Hrun.
  injection Hrun as <- <-.
  split; [reflexivity|]. split; [reflexivity|].
  destruct Hres as [m Hm].
  destruct (Create_success_inv w r ctx req m Hm)
    as (absPath & dargs & args & denv & envMap & output & H); cbv zeta in H.
  destruct H as (_ & _ & _ & _ & _ & _ & _ & _ & Hmodel & Hcalls).
  rewrite Hcalls in Hin.
  repeat (destruct Hin as [Hin|Hin]; try discriminate Hin); [|contradiction].
  injection Hin as _ _ Hout. subst output.
  set (captured := exec.written (exec.writes (spawn w cmd))) in *.
  destruct (TrimSpace_spec captured) as (pre & post & Hcut & Hpre & Hpost & Hl & Hr).
  destruct (TrimSpace_ascii_edges captured) as (Hhead & Hlast).
  exists m, (strings_.TrimSpace captured), pre, post.
  split; [exact Hm|]. split; [rewrite Hmodel; reflexivity|].
  split; [reflexivity|]. split; [exact Hcut|].
  split; [exact Hpre|]. split; [exact Hpost|].
  split; [exact Hhead|]. split; [exact Hlast|].
  unfold strings_.TrimSpace at 1. rewrite Hl. exact Hr.
Qed.

(** A tool that prints [hello] and a line feed to standard output, then
    [world] and a line feed to standard error, and exits with status zero
    after a millisecond: the state holds [hello], a line feed, [world]. *)
Lemma Create_output_witness :
  let w := Sample.world ["A=1"] [] (Sample.hello 0) in
  let req := Sample.request (Sample.model "kcl" Null Null Null) in
  let cmd := {| exec.Name := "kcl"; exec.Args := []; exec.Dir := "/work/kcl";
                exec.Env := ["A=1"] |} in
  let c := context.WithTimeout context.Background 300000000000 in
  let captured := "hello" +:+ nl +:+ "world" +:+ nl in
  exec.written (exec.writes (spawn w cmd)) = captured
  /\ strings_.TrimSpace captured = "hello" +:+ nl +:+ "world"
  /\ (exists m,
        State (fst (Create w Sample.unconfigured context.Background req new_Response))
        = Some m
        /\ Output m = Known ("hello" +:+ nl +:+ "world"))
  /\ (@None exec.Error) = None
  /\ captured = exec.written (exec.writes (spawn w cmd))
  /\ exists m o pre post,
       State (fst (Create w Sample.unconfigured context.Background req new_Response))
       = Some m
       /\ Output m = Known o
       /\ o = strings_.TrimSpace (exec.written (exec.writes (spawn w cmd)))
       /\ exec.written (exec.writes (spawn w cmd)) = pre +:+ o +:+ post
       /\ spaces true pre /\ spaces true post
       /\ (forall a s, o = String a s -> strings_.asciiSpace a = false)
       /\ (forall s a, o = s +:+ String a "" -> strings_.asciiSpace a = false)
       /\ strings_.TrimSpace o = o.
Proof.
  cbv zeta. split; [reflexivity|]. split; [reflexivity|].
  split; [eexists; split; vm_compute; reflexivity|].
  apply (Create_output (Sample.world ["A=1"] [] (Sample.hello 0)) Sample.unconfigured
           context.Background (Sample.request (Sample.model "kcl" Null Null Null))
           {| exec.Name := "kcl"; exec.Args := []; exec.Dir := "/work/kcl";
              exec.Env := ["A=1"] |}
           (context.WithTimeout context.Background 300000000000)
           ("hello" +:+ nl +:+ "world" +:+ nl) None); try reflexivity.
  vm_compute. do 3 right. left. reflexivity.
Defined.

(** ** What the id tells apart *)

Section JoinedString.

Lemma append_inv_head (a x y : string) : a +:+ x = a +:+ y -> x = y.
Proof. apply (String.app_inj a). Qed.

Lemma append_inv_tail (a b s : string) : a +:+ s = b +:+ s -> a = b.
Proof.
  intros H. apply (f_equal String.rev) in H. rewrite !rev_append in H.
  apply append_inv_head in H. apply (f_equal String.rev) in H.
  rewrite !rev_involutive in H. exact H.
Qed.

(** An element of a joined list sits between two strings that the other
    elements fix. *)
Lemma Join_middle (pre post : list string) :
  exists P S, forall x, Join (pre ++ x :: post) " " = P +:+ x +:+ S.
Proof.
  induction pre as [|y pre (P & S & IH)].
  - destruct post as [|z post].
    + exists "", "". intros x. cbn [app Join]. rewrite append_nil_r. reflexivity.
    + exists "", (" " +:+ Join (z :: post) " "). intros x. reflexivity.
  - exists (y +:+ " " +:+ P), S. intros x.
    assert (Hcons : forall l : list string,
               l <> [] -> Join (y :: l) " " = y +:+ " " +:+ Join l " ").
    { intros [|z l] Hl; [contradiction|reflexivity]. }
    change ((y :: pre) ++ x :: post) with (y :: (pre ++ x :: post)).
    rewrite Hcons by (destruct pre; discriminate).
    rewrite IH, !append_assoc. reflexivity.
Qed.

Lemma fmt_v_middle (pre post : list string) (x x' : string) :
  fmt_v (pre ++ x :: post) = fmt_v (pre ++ x' :: post) -> x = x'.
Proof.
  unfold fmt_v. intros H. apply append_inv_head in H.
  apply (append_inv_tail _ _ "]") in H.
  destruct (Join_middle pre post) as (P & S & HJ). rewrite !HJ in H.
  apply append_inv_head in H. exact (append_inv_tail _ _ _ H).
Qed.

(** Without [|] in the two paths and in the arguments, and with arguments
    that are non-empty and without space, the joined string fixes the work
    dir, the command and the arguments, whatever the environment is. *)
Lemma idInput_inj_args (a c a' c' : string) (args env args' env' : list string) :
  contains_byte "|" a = false -> contains_byte "|" a' = false ->
  contains_byte "|" c = false -> contains_byte "|" c' = false ->
  Forall (fun x => x <> "" /\ contains_byte " " x = false
                   /\ contains_byte "|" x = false) args ->
  Forall (fun x => x <> "" /\ contains_byte " " x = false
                   /\ contains_byte "|" x = false) args' ->
  idInput a c args env = idInput a' c' args' env' ->
  a = a' /\ c = c' /\ args = args' /\ fmt_v env = fmt_v env'.
Proof.
  intros Ha Ha' Hc Hc' Hargs Hargs'. unfold idInput.
  change ("|" +:+ ?s) with (String "|" s). intros H.
  apply split_first in H as [-> H]; [|assumption..].
  apply split_first in H as [-> H]; [|assumption..].
  assert (Hv : forall l,
             Forall (fun x => x <> "" /\ contains_byte " " x = false
                              /\ contains_byte "|" x = false) l ->
             contains_byte "|" (fmt_v l) = false).
  { intros l Hl. unfold fmt_v. rewrite !contains_byte_app, contains_byte_Join.
    - reflexivity.
    - reflexivity.
    - eapply Forall_impl; [exact Hl|]. intros x (_ & _ & Hx). exact Hx. }
  apply split_first in H as [Hfa Hfe]; [|apply Hv; assumption..].
  repeat split; [|exact Hfe].
  apply fmt_v_inj; [| |exact Hfa];
    (eapply Forall_impl; [eassumption|]; intros x (? & ? & _); auto).
Qed.

End JoinedString.

(** C2, as the code has it. The id is the encoding of the first 16 bytes
    of the SHA-256 digest of the joined string: inputs with the same
    joined string (identical inputs among them) get the same id, and two ids
    are equal exactly when those 16 bytes are. A change of one field alone,
    the work dir, the command path, one argument or one environment entry,
    the rest being kept, always changes the joined string. Inputs that
    differ in more than that are told apart by the joined string when the
    work dir and the command path have no [|] and the arguments are
    non-empty and have neither a space nor a [|], as far as work dir,
    command and arguments go and whatever the environment is; and as far as
    the environment goes when its entries are non-empty and have no space. *)
Theorem generate_id_inputs :
  (forall a c a' c' args env args' env',
      idInput a c args env = idInput a' c' args' env' ->
      generate_id a c args env = generate_id a' c' args' env')
  /\ (forall a c a' c' args env args' env',
         generate_id a c args env = generate_id a' c' args' env'
         <-> take 16 (sha256.Sum256 (idInput a c args env))
             = take 16 (sha256.Sum256 (idInput a' c' args' env')))
  /\ (forall a a' c args env,
         a <> a' -> idInput a c args env <> idInput a' c args env)
  /\ (forall a c c' args env,
         c <> c' -> idInput a c args env <> idInput a c' args env)
  /\ (forall a c pre x x' post env,
         x <> x' ->
         idInput a c (pre ++ x :: post) env <> idInput a c (pre ++ x' :: post) env)
  /\ (forall a c args pre e e' post,
         e <> e' ->
         idInput a c args (pre ++ e :: post) <> idInput a c args (pre ++ e' :: post))
  /\ (forall a c a' c' args env args' env',
         contains_byte "|" a = false -> contains_byte "|" a' = false ->
         contains_byte "|" c = false -> contains_byte "|" c' = false ->
         Forall (fun x => x <> "" /\ contains_byte " " x = false
                          /\ contains_byte "|" x = false) args ->
         Forall (fun x => x <> "" /\ contains_byte " " x = false
                          /\ contains_byte "|" x = false) args' ->
         idInput a c args env = idInput a' c' args' env' ->
         a = a' /\ c = c' /\ args = args'
         /\ (Forall (fun e => e <> "" /\ contains_byte " " e = false) env ->
             Forall (fun e => e <> "" /\ contains_byte " " e = false) env' ->
             env = env')).
Proof.
  split; [|split; [|split; [|split; [|split; [|split]]]]].
  - intros a c a' c' args env args' env' H. unfold generate_id. rewrite H. reflexivity.
  - intros a c a' c' args env args' env'. unfold generate_id. cbv zeta. split.
    + apply EncodeToString_inj; apply Forall_take, Sum256_bytes.
    + intros ->. reflexivity.
  - intros a a' c args env Hne H. apply Hne. unfold idInput in H.
    exact (append_inv_tail _ _ _ H).
  - intros a c c' args env Hne H. apply Hne. unfold idInput in H.
    do 2 apply append_inv_head in H. exact (append_inv_tail _ _ _ H).
  - intros a c pre x x' post env Hne H. apply Hne. unfold idInput in H.
    do 4 apply append_inv_head in H. apply append_inv_tail in H.
    exact (fmt_v_middle pre post x x' H).
  - intros a c args pre e e' post Hne H. apply Hne. unfold idInput in H.
    do 6 apply append_inv_head in H.
    exact (fmt_v_middle pre post e e' H).
  - intros a c a' c' args env args' env' Ha Ha' Hc Hc' Hargs Hargs' H.
    destruct (idInput_inj_args _ _ _ _ _ _ _ _ Ha Ha' Hc Hc' Hargs Hargs' H)
      as (-> & -> & -> & Hfe).
    repeat split. intros Henv Henv'. exact (fmt_v_inj env env' Henv Henv' Hfe).
Qed.

(** One argument changed, in an environment with spaces in it: the joined
    strings differ, and here the ids as well. Work dir, command and
    arguments are read back from the joined string with such an
    environment too. *)
Lemma generate_id_inputs_witness :
  let env := ["PS1=\u@\h \w $ "; "A=1"] in
  idInput "/work/kcl" "kcl" ["-o"; "out.json"] env
  <> idInput "/work/kcl" "kcl" ["-o"; "out.yaml"] env
  /\ generate_id "/work/kcl" "kcl" ["-o"; "out.json"] env
     <> generate_id "/work/kcl" "kcl" ["-o"; "out.yaml"] env
  /\ (forall a' c' args' env',
         contains_byte "|" a' = false -> contains_byte "|" c' = false ->
         Forall (fun x => x <> "" /\ contains_byte " " x = false
                          /\ contains_byte "|" x = false) args' ->
         idInput "/work/kcl" "kcl" ["-o"; "out.json"] env = idInput a' c' args' env' ->
         "/work/kcl" = a' /\ "kcl" = c' /\ ["-o"; "out.json"] = args').
Proof.
  cbv zeta. split; [|split].
  - apply (proj1 (proj2 (proj2 (proj2 (proj2 generate_id_inputs))))
             "/work/kcl" "kcl" ["-o"] "out.json" "out.yaml" []).
    discriminate.
  - vm_compute. discriminate.
  - intros a' c' args' env' Ha' Hc' Hargs' H.
    destruct (proj2 (proj2 (proj2 (proj2 (proj2 (proj2 generate_id_inputs)))))
                "/work/kcl" "kcl" a' c' ["-o"; "out.json"] _ args' env'
                eq_refl Ha' eq_refl Hc'
                ltac:(repeat constructor; discriminate) Hargs' H)
      as (Ha & Hc & Hargs & _).
    auto.
Defined.
